(** * Stock dashboard (dashboard.py): indicator arithmetic, resampling and
      the fetch / compute / render pipeline.

    The script works on pandas float64 columns.  Numbers are modelled as
    real numbers extended with the IEEE special values the script can
    produce (the infinities of a division by zero and the missing value
    NaN); rounding is not modelled there, and a zero carries no sign.  A
    second embedding of the indicator lines over binary64 itself
    ([Binary64]) evaluates them with IEEE rounding on concrete closes.
    The pandas
    operations the script calls ([diff], [where], [rolling(...).mean()],
    [rolling(...).std()], [resample(...).agg(...).dropna()]) are written out
    as list functions following their documented behaviour.  The script
    itself is a sequence of statements that draw on the page and may raise
    an [Exception]; the two data providers are parameters of a run. *)

From Stdlib Require Import String DecimalString Bool Reals Lra Lia Arith ZArith.
From Stdlib Require Import List Sorted FinFun Permutation.
From Stdlib Require Uint63 PrimFloat.
Import ListNotations.
Open Scope R_scope.

(* ================================================================== *)
(** ** float64 values *)
(* ================================================================== *)

(** A finite value is an exact real: the operations below do not round,
    absorb or overflow.  What depends on rounding is evaluated over
    [Binary64]. *)
Module F64.

Inductive float64 : Type :=
| Fin (r : R)
| PInf
| NInf
| NaN.

Definition is_nan (a : float64) : bool :=
  match a with NaN => true | _ => false end.

Definition is_finite (a : float64) : bool :=
  match a with Fin _ => true | _ => false end.

Definition is_zero (r : R) : bool := if Req_dec_T r 0 then true else false.
Definition is_neg (r : R) : bool := if Rlt_dec r 0 then true else false.
Definition inf_of (negative : bool) : float64 := if negative then NInf else PInf.

Definition fneg (a : float64) : float64 :=
  match a with
  | Fin x => Fin (- x)
  | PInf => NInf
  | NInf => PInf
  | NaN => NaN
  end.

Definition fadd (a b : float64) : float64 :=
  match a, b with
  | NaN, _ | _, NaN => NaN
  | Fin x, Fin y => Fin (x + y)
  | PInf, NInf | NInf, PInf => NaN
  | PInf, _ | _, PInf => PInf
  | NInf, _ | _, NInf => NInf
  end.

Definition fsub (a b : float64) : float64 := fadd a (fneg b).

Definition fmul (a b : float64) : float64 :=
  match a, b with
  | NaN, _ | _, NaN => NaN
  | Fin x, Fin y => Fin (x * y)
  | Fin x, PInf | PInf, Fin x => if is_zero x then NaN else inf_of (is_neg x)
  | Fin x, NInf | NInf, Fin x => if is_zero x then NaN else inf_of (negb (is_neg x))
  | PInf, PInf | NInf, NInf => PInf
  | PInf, NInf | NInf, PInf => NInf
  end.

(** Division never raises on a float64 column: a zero divisor gives an
    infinity, or NaN for 0/0. *)
Definition fdiv (a b : float64) : float64 :=
  match a, b with
  | NaN, _ | _, NaN => NaN
  | Fin x, Fin y =>
      if is_zero y
      then (if is_zero x then NaN else inf_of (is_neg x))
      else Fin (x / y)
  | Fin _, PInf | Fin _, NInf => Fin 0
  | PInf, Fin y => inf_of (is_neg y)
  | NInf, Fin y => inf_of (negb (is_neg y))
  | _, _ => NaN
  end.

Definition fsqrt (a : float64) : float64 :=
  match a with
  | Fin x => if is_neg x then NaN else Fin (sqrt x)
  | PInf => PInf
  | _ => NaN
  end.

(** [a < b]; every comparison with NaN is false. *)
Definition fltb (a b : float64) : bool :=
  match a, b with
  | NaN, _ | _, NaN => false
  | Fin x, Fin y => if Rlt_dec x y then true else false
  | NInf, NInf => false
  | NInf, _ => true
  | Fin _, PInf => true
  | _, _ => false
  end.

(** [a >= b]. *)
Definition fgeb (a b : float64) : bool :=
  match a, b with
  | NaN, _ | _, NaN => false
  | Fin x, Fin y => if Rle_dec y x then true else false
  | PInf, _ => true
  | _, NInf => true
  | _, _ => false
  end.

Definition fmax (a b : float64) : float64 := if fltb a b then b else a.
Definition fmin (a b : float64) : float64 := if fltb b a then b else a.

End F64.
Import F64.

(* ================================================================== *)
(** ** pandas Series operations used by the script *)
(* ================================================================== *)

Module Series.

Definition Series := list float64.

(** Element-wise operation on two columns of one frame (same index). *)
Definition binop (f : float64 -> float64 -> float64) (a b : Series) : Series :=
  map (fun p : float64 * float64 => f (fst p) (snd p)) (combine a b).

Definition add := binop fadd.
Definition sub := binop fsub.
Definition div := binop fdiv.
Definition mul_scalar (a : Series) (k : float64) : Series := map (fun x => fmul x k) a.
Definition scalar_add (k : float64) (a : Series) : Series := map (fun x => fadd k x) a.
Definition scalar_sub (k : float64) (a : Series) : Series := map (fun x => fsub k x) a.
Definition scalar_div (k : float64) (a : Series) : Series := map (fun x => fdiv k x) a.
Definition neg (a : Series) : Series := map fneg a.

(** [s > k] and [s < k]: boolean masks. *)
Definition gt (a : Series) (k : float64) : list bool := map (fun x => fltb k x) a.
Definition lt (a : Series) (k : float64) : list bool := map (fun x => fltb x k) a.

(** [s.where(mask, other)]: keep the value where the mask holds, else
    [other]. *)
Definition where_ (a : Series) (mask : list bool) (other : float64) : Series :=
  map (fun p : float64 * bool => if snd p then fst p else other) (combine a mask).

(** [s.diff()]: first row missing, then the difference with the previous row. *)
Fixpoint diff_from (prev : float64) (s : Series) : Series :=
  match s with
  | [] => []
  | x :: t => fsub x prev :: diff_from x t
  end.

Definition diff (s : Series) : Series :=
  match s with
  | [] => []
  | x :: t => NaN :: diff_from x t
  end.

(** The rows of the trailing window of nominal size [w] that ends at row [i]. *)
Definition window_at {A : Type} (w i : nat) (l : list A) : list A :=
  firstn (Nat.min (i + 1) w) (skipn (i + 1 - w) l).

(** Aggregations skip missing values and count what is left. *)
Definition observations (win : Series) : Series :=
  filter (fun x => negb (is_nan x)) win.

(** Rolling windows take an infinite value as missing too. *)
Definition rolling_values (win : Series) : Series := filter is_finite win.

Definition fsum (s : Series) : float64 := fold_left fadd s (Fin 0).

Definition mean_of (obs : Series) : float64 :=
  fdiv (fsum obs) (Fin (INR (length obs))).

Definition window_mean (minp : nat) (win : Series) : float64 :=
  let obs := rolling_values win in
  let nobs := length obs in
  if (minp <=? nobs)%nat && (0 <? nobs)%nat then mean_of obs else NaN.

(** Sample standard deviation (ddof = 1): needs more than one observation. *)
Definition window_std (minp : nat) (win : Series) : float64 :=
  let obs := rolling_values win in
  let nobs := length obs in
  if (minp <=? nobs)%nat && (1 <? nobs)%nat
  then
    let m := mean_of obs in
    fsqrt (fdiv (fsum (map (fun x => fmul (fsub x m) (fsub x m)) obs))
                (Fin (INR (nobs - 1))))
  else NaN.

Definition rolling (agg : Series -> float64) (w : nat) (s : Series) : Series :=
  map (fun i => agg (window_at w i s)) (seq 0 (length s)).

Definition rolling_mean (w minp : nat) (s : Series) : Series :=
  rolling (window_mean minp) w s.

Definition rolling_std (w minp : nat) (s : Series) : Series :=
  rolling (window_std minp) w s.

End Series.
Import Series.

(* ================================================================== *)
(** ** Indicator columns (the block under [if not df.empty]) *)
(* ================================================================== *)

Module Indicators.

Section Columns.
(** [window] and [std_dev] come from the sidebar, [Close] is [df['Close']]. *)
Variable window : nat.
Variable std_dev : float64.
Variable Close : Series.

Definition SMA : Series := rolling_mean window 1 Close.
Definition STD : Series := rolling_std window 1 Close.

Definition Upper : Series := add SMA (mul_scalar STD std_dev).
Definition Lower : Series := sub SMA (mul_scalar STD std_dev).

Definition delta : Series := diff Close.
Definition gain_raw : Series := where_ delta (gt delta (Fin 0)) (Fin 0).
Definition loss_raw : Series := neg (where_ delta (lt delta (Fin 0)) (Fin 0)).
(** [rolling(window=14)] leaves [min_periods] at its default, the window. *)
Definition gain : Series := rolling_mean 14 14 gain_raw.
Definition loss : Series := rolling_mean 14 14 loss_raw.
Definition rs : Series := div gain loss.
Definition RSI : Series :=
  scalar_sub (Fin 100) (scalar_div (Fin 100) (scalar_add (Fin 1) rs)).
End Columns.

(** One row of [RSI] as a function of the two averages of that row. *)
Definition rsi_point (g l : float64) : float64 :=
  fsub (Fin 100) (fdiv (Fin 100) (fadd (Fin 1) (fdiv g l))).

End Indicators.
Import Indicators.

(* ================================================================== *)
(** ** The indicator lines over binary64 *)
(* ================================================================== *)

(** The same lines of the script, evaluated in IEEE binary64 with its
    rounding.  pandas accumulates the sums of a rolling window with
    compensated additions and updates them as the window moves; here each
    window is summed from its first row to its last.  On the closes
    evaluated below every sum and every squared deviation is exactly
    representable, so neither the order nor the compensation changes a
    value: the first rounded operations are the divisions, the square root
    and the additions of the band and RSI formulas. *)
Module Binary64.
Import PrimFloat.
Local Open Scope float_scope.

Definition Column := list float.

Definition of_nat (n : nat) : float := of_uint63 (Uint63.of_Z (Z.of_nat n)).

Definition binop (f : float -> float -> float) (a b : Column) : Column :=
  map (fun p : float * float => f (fst p) (snd p)) (combine a b).

Definition gt (a : Column) (k : float) : list bool := map (fun x => ltb k x) a.
Definition lt (a : Column) (k : float) : list bool := map (fun x => ltb x k) a.

Definition where_ (a : Column) (mask : list bool) (other : float) : Column :=
  map (fun p : float * bool => if snd p then fst p else other) (combine a mask).

Fixpoint diff_from (prev : float) (s : Column) : Column :=
  match s with
  | [] => []
  | x :: t => (x - prev) :: diff_from x t
  end.

Definition diff (s : Column) : Column :=
  match s with
  | [] => []
  | x :: t => nan :: diff_from x t
  end.

Definition rolling_values (win : Column) : Column := filter is_finite win.

Definition fsum (s : Column) : float := fold_left add s 0.

Definition mean_of (obs : Column) : float := fsum obs / of_nat (length obs).

Definition window_mean (minp : nat) (win : Column) : float :=
  let obs := rolling_values win in
  let nobs := length obs in
  if ((minp <=? nobs)%nat && (0 <? nobs)%nat)%bool then mean_of obs else nan.

Definition window_std (minp : nat) (win : Column) : float :=
  let obs := rolling_values win in
  let nobs := length obs in
  if ((minp <=? nobs)%nat && (1 <? nobs)%nat)%bool
  then
    let m := mean_of obs in
    sqrt (fsum (map (fun x => (x - m) * (x - m)) obs) / of_nat (nobs - 1))
  else nan.

Definition rolling (agg : Column -> float) (w : nat) (s : Column) : Column :=
  map (fun i => agg (window_at w i s)) (seq 0 (length s)).

Definition SMA (window : nat) (Close : Column) : Column :=
  rolling (window_mean 1) window Close.
Definition STD (window : nat) (Close : Column) : Column :=
  rolling (window_std 1) window Close.
Definition Upper (window : nat) (std_dev : float) (Close : Column) : Column :=
  binop add (SMA window Close) (map (fun x => x * std_dev) (STD window Close)).
Definition Lower (window : nat) (std_dev : float) (Close : Column) : Column :=
  binop sub (SMA window Close) (map (fun x => x * std_dev) (STD window Close)).

Definition delta (Close : Column) : Column := diff Close.
Definition gain_raw (Close : Column) : Column :=
  where_ (delta Close) (gt (delta Close) 0) 0.
Definition loss_raw (Close : Column) : Column :=
  map opp (where_ (delta Close) (lt (delta Close) 0) 0).
Definition gain (Close : Column) : Column :=
  rolling (window_mean 14) 14 (gain_raw Close).
Definition loss (Close : Column) : Column :=
  rolling (window_mean 14) 14 (loss_raw Close).
Definition rs (Close : Column) : Column := binop div (gain Close) (loss Close).
Definition RSI (Close : Column) : Column :=
  map (fun x => 100 - x) (map (fun x => 100 / x) (map (fun x => 1 + x) (rs Close))).

(** The close prices of the end-to-end scenario. *)
Definition scenario_closes : Column := [10; 11; 12; 11; 13; 14; 13; 15; 16; 15].


End Binary64.

(* ================================================================== *)
(** ** Reference definitions on real sequences *)
(* ================================================================== *)

Module Ref.

Definition Rsum (l : list R) : R := fold_right Rplus 0 l.

(** Arithmetic mean of a sequence of reals. *)
Definition arithmetic_mean (l : list R) : R := Rsum l / INR (length l).

(** Sample standard deviation (divisor: number of points minus one). *)
Definition sample_std (l : list R) : R :=
  let m := arithmetic_mean l in
  sqrt (Rsum (map (fun x => (x - m) * (x - m)) l) / INR (length l - 1)).

(** [l[lo .. lo+len-1]]. *)
Definition slice (l : list R) (lo len : nat) : list R :=
  map (fun j => nth j l 0) (seq lo len).

(** Period-over-period change at row [j >= 1]. *)
Definition change (closes : list R) (j : nat) : R :=
  nth j closes 0 - nth (j - 1) closes 0.

Definition Gain (closes : list R) (j : nat) : R := Rmax (change closes j) 0.
Definition Loss (closes : list R) (j : nat) : R := Rmax (- change closes j) 0.

(** The rows the 14-row averages run over: row 0 has no previous row, and
    [where] puts 0 there. *)
Definition gain_row (closes : list R) (j : nat) : R :=
  if (j =? 0)%nat then 0 else Gain closes j.
Definition loss_row (closes : list R) (j : nat) : R :=
  if (j =? 0)%nat then 0 else Loss closes j.

End Ref.
Import Ref.

(* ================================================================== *)
(** ** OHLCV frames and the 4-hour resampling *)
(* ================================================================== *)

Module Frame.

(** One row of the downloaded frame; [ts] is the index: an instant, in
    elapsed seconds. *)
Record Row : Type := mkRow {
  ts : Z;
  Open : float64;
  High : float64;
  Low : float64;
  Close : float64;
  Volume : float64
}.

Definition DataFrame := list Row.

Definition empty (df : DataFrame) : bool :=
  match df with [] => true | _ => false end.

(** The timezone of an index, as far as resampling reads it:
    [day_start t] is the instant of local midnight of the day that holds
    the instant [t] ([Timestamp.normalize]).  A day starts no later than
    its instants, and an instant between the start of a day and an instant
    of that day lies in that day. *)
Record Timezone : Type := mkTimezone {
  day_start : Z -> Z;
  day_start_le : forall t, (day_start t <= t)%Z;
  day_start_same :
    forall t u, (day_start t <= u <= t)%Z -> day_start u = day_start t
}.

(** Time groupers sort the frame by its index first; the sort is stable. *)
Fixpoint insert_row (r : Row) (df : DataFrame) : DataFrame :=
  match df with
  | [] => [r]
  | x :: t => if (ts r <=? ts x)%Z then r :: x :: t else x :: insert_row r t
  end.

Definition sort_index (df : DataFrame) : DataFrame :=
  fold_right insert_row [] df.

(** Width of a '4h' bin, in elapsed seconds. *)
Definition four_hours : Z := 14400.

(** The aggregations of [.agg]; each skips missing values. *)
Definition agg_first (s : Series) : float64 := hd NaN (observations s).
Definition agg_last (s : Series) : float64 := last (observations s) NaN.
Definition agg_max (s : Series) : float64 :=
  match observations s with
  | [] => NaN
  | x :: t => fold_left fmax t x
  end.
Definition agg_min (s : Series) : float64 :=
  match observations s with
  | [] => NaN
  | x :: t => fold_left fmin t x
  end.
Definition agg_sum (s : Series) : float64 := fsum (observations s).

Section Bins.
(** Bins are anchored at [origin] and step four elapsed hours from there:
    bin [k] holds the instants from [origin + k * four_hours] up to, not
    including, [origin + (k + 1) * four_hours], and carries its left edge
    as label. *)
Variable origin : Z.

Definition bucket (t : Z) : Z := ((t - origin) / four_hours)%Z.

Definition in_bucket (k : Z) (df : DataFrame) : DataFrame :=
  filter (fun r => (bucket (ts r) =? k)%Z) df.

Definition agg_bucket (df : DataFrame) (k : Z) : Row :=
  let g := in_bucket k df in
  mkRow (origin + k * four_hours)
        (agg_first (map Open g))
        (agg_max (map High g))
        (agg_min (map Low g))
        (agg_last (map Close g))
        (agg_sum (map Volume g)).

(** Every bin from the first row's to the last row's of a sorted frame,
    empty ones included. *)
Definition bucket_range (df : DataFrame) : list Z :=
  match df with
  | [] => []
  | r0 :: _ =>
      let k0 := bucket (ts r0) in
      let k1 := bucket (ts (last df r0)) in
      map (fun j => (k0 + Z.of_nat j)%Z) (seq 0 (Z.to_nat (k1 - k0 + 1)))
  end.

Definition resample_agg (df : DataFrame) : DataFrame :=
  map (agg_bucket df) (bucket_range df).
End Bins.

Definition has_nan (r : Row) : bool :=
  is_nan (Open r) || is_nan (High r) || is_nan (Low r)
  || is_nan (Close r) || is_nan (Volume r).

Definition dropna (df : DataFrame) : DataFrame :=
  filter (fun r => negb (has_nan r)) df.

(** [.resample('4h').agg({...}).dropna()] of a sorted frame, for bins
    anchored at [origin]. *)
Definition resample_from (origin : Z) (sorted : DataFrame) : DataFrame :=
  dropna (resample_agg origin sorted).

(** The default anchor ([origin='start_day']): midnight of the first
    row's day, in the timezone of the index. *)
Definition start_day (tz : Timezone) (sorted : DataFrame) : Z :=
  match sorted with
  | [] => 0%Z
  | r0 :: _ => day_start tz (ts r0)
  end.

(** [df.resample('4h').agg({...}).dropna()] *)
Definition resample_4h (tz : Timezone) (df : DataFrame) : DataFrame :=
  let sorted := sort_index df in
  resample_from (start_day tz sorted) sorted.

(** Timestamps not decreasing. *)
Definition nondecreasing (df : DataFrame) : Prop :=
  StronglySorted (fun a b => (ts a <= ts b)%Z) df.

(** Timestamps strictly increasing. *)
Definition ascending (df : DataFrame) : Prop :=
  StronglySorted (fun a b => (ts a < ts b)%Z) df.

Definition finite (a : float64) : bool :=
  match a with Fin _ => true | _ => false end.

Definition finite_row (r : Row) : bool :=
  finite (Open r) && finite (High r) && finite (Low r)
  && finite (Close r) && finite (Volume r).

End Frame.

(* ================================================================== *)
(** ** The script: fundamentals, history, indicators, chart *)
(* ================================================================== *)

Module Dashboard.
Import Frame.
Local Open Scope string_scope.

Inductive Color : Type := green | red.

(** The figure handed to [st.plotly_chart]: the traces of the three rows. *)
Record Figure : Type := mkFigure {
  title : string;
  candlestick : DataFrame;
  upper_bb : Series;
  lower_bb : Series;
  sma_line : Series;
  rsi_line : Series;
  rsi_hlines : list (R * Color);
  rsi_range : R * R;
  volume_y : Series;
  marker_color : list Color
}.

(** What the page shows, in order. *)
Inductive Event : Type :=
| Metric (label value : string) (delta : option string)
| ErrorMsg (msg : string)
| WarningMsg (msg : string)
| PlotlyChart (fig : Figure).

(** A call either returns or raises an [Exception] with a message. *)
Inductive Result (A : Type) : Type :=
| Ok (a : A)
| Raise (e : string).
Arguments Ok {A} a.
Arguments Raise {A} e.

(** Statements of the script: they may draw on the page and may raise;
    what was drawn before a raise stays on the page. *)
Definition St (A : Type) : Type := list Event -> Result A * list Event.

Definition ret {A} (a : A) : St A := fun page => (Ok a, page).
Definition bind {A B} (m : St A) (k : A -> St B) : St B :=
  fun page =>
    match m page with
    | (Ok a, page') => k a page'
    | (Raise e, page') => (Raise e, page')
    end.
Definition call {A} (r : Result A) : St A := fun page => (r, page).
Definition show (ev : Event) : St unit := fun page => (Ok tt, (page ++ [ev])%list).
Definition try_except (body : St unit) (handler : string -> St unit) : St unit :=
  fun page =>
    match body page with
    | (Ok tt, page') => (Ok tt, page')
    | (Raise e, page') => handler e page'
    end.

Notation "x <- m ;; k" := (bind m (fun x => k))
  (at level 61, m at next level, right associativity).
Notation "m ;;; k" := (bind m (fun _ => k))
  (at level 61, right associativity).

(** Sidebar values. *)
Record Inputs : Type := mkInputs {
  symbol : string;
  period : string;
  interval : string;
  window : Z;
  std_dev : R;
  analyze : bool
}.

Definition Dict := list (string * string).

Fixpoint get (d : Dict) (key default : string) : string :=
  match d with
  | [] => default
  | (k, v) :: t => if String.eqb k key then v else get t key default
  end.

(** The two data providers.  A downloaded frame comes with the timezone
    of its index. *)
Record Providers : Type := mkProviders {
  get_basic_info : string -> Result Dict;
  get_current_price_change : string -> Result Dict;
  yf_download : string -> string -> string -> Result (Timezone * DataFrame)
}.

Definition show_int (z : Z) : string := NilZero.string_of_int (Z.to_int z).

(** [rolling(window=..., min_periods=...)] validates its arguments: a
    window below [min_periods] is a [ValueError]. *)
Definition rolling_args (w : Z) (minp : nat) : Result nat :=
  if (w <? Z.of_nat minp)%Z
  then Raise ("min_periods " ++ show_int (Z.of_nat minp)
              ++ " must be <= window " ++ show_int w)
  else Ok (Z.to_nat w).

Definition volume_color (row : Row) : Color :=
  if fgeb (fsub (Open row) (Close row)) (Fin 0) then green else red.

(** The list comprehension over [df.iterrows()]. *)
Definition colors (df : DataFrame) : list Color := map volume_color df.

Definition make_figure (sym : string) (df : DataFrame) (w : nat) (k : float64) : Figure :=
  let close := map Close df in
  mkFigure (sym ++ " Price & Bollinger Bands")
           df
           (Upper w k close)
           (Lower w k close)
           (SMA w close)
           (RSI close)
           [(70, red); (30, green)]
           (0, 100)
           (map Volume df)
           (colors df).

Definition fundamentals (ext : Providers) (inp : Inputs) : St unit :=
  try_except
    (basic_info <- call (get_basic_info ext (symbol inp)) ;;
     price_change <- call (get_current_price_change ext (symbol inp)) ;;
     show (Metric "Company Name" (get basic_info "name" (symbol inp)) None) ;;;
     show (Metric "Current Price" ("$" ++ get basic_info "price" "N/A") None) ;;;
     show (Metric "Change" (get price_change "change" "None")
                  (Some (get price_change "changePercent" "None" ++ "%"))))
    (fun e => show (ErrorMsg ("Could not retrieve data from Rug: " ++ e))).

Definition yf_interval (interval : string) : string :=
  if String.eqb interval "4h" then "1h" else interval.

Definition history (ext : Providers) (inp : Inputs) : St unit :=
  try_except
    (dl <- call (yf_download ext (symbol inp) (period inp) (yf_interval (interval inp))) ;;
     let df := snd dl in
     let df := if String.eqb (interval inp) "4h" && negb (empty df)
               then resample_4h (fst dl) df else df in
     if negb (empty df)
     then
       w <- call (rolling_args (window inp) 1) ;;
       show (PlotlyChart (make_figure (symbol inp) df w (Fin (std_dev inp))))
     else show (WarningMsg "No historical price data found."))
    (fun e => show (ErrorMsg ("Error calculating technicals: " ++ e))).

Definition main (ext : Providers) (inp : Inputs) : St unit :=
  if analyze inp
  then fundamentals ext inp ;;; history ext inp
  else ret tt.

(** The page after one run of the script. *)
Definition run (ext : Providers) (inp : Inputs) : list Event :=
  snd (main ext inp []).

Definition is_chart (ev : Event) : bool :=
  match ev with PlotlyChart _ => true | _ => false end.

Definition is_error (ev : Event) : bool :=
  match ev with ErrorMsg _ => true | _ => false end.

(** A statement only adds to the page, and what it adds and returns does
    not depend on what is already there. *)
Definition draws_after {A} (m : St A) : Prop :=
  forall page, m page = (fst (m []), (page ++ snd (m []))%list).

End Dashboard.

(* ================================================================== *)
(** ** Concrete inputs *)
(* ================================================================== *)

Module Inputs.

(** The close prices of the end-to-end scenario. *)
Definition scenario_closes : list R := [10; 11; 12; 11; 13; 14; 13; 15; 16; 15].

(** Fourteen close prices: thirteen changes. *)
Definition fourteen_closes : list R :=
  [10; 11; 12; 11; 13; 14; 13; 15; 16; 15; 16; 17; 16; 18].


(** A flat run of fifteen close prices. *)
Definition flat_closes : list R := repeat 5 15.

(** A bar that closes above its open. *)
Definition rising_bar : Frame.Row :=
  Frame.mkRow 34200 (Fin 10) (Fin 12) (Fin 9) (Fin 11) (Fin 1000).

(** Hourly bars of one session (09:30 to 15:30) and the first bar of the
    next day; the bins between the two days hold no bar. *)
Definition hourly_bars : Frame.DataFrame :=
  [ Frame.mkRow 34200 (Fin 10) (Fin 12) (Fin 9) (Fin 11) (Fin 1000);
    Frame.mkRow 37800 (Fin 11) (Fin 13) (Fin 10) (Fin 12) (Fin 1500);
    Frame.mkRow 41400 (Fin 12) (Fin 12) (Fin 8) (Fin 9) (Fin 700);
    Frame.mkRow 45000 (Fin 9) (Fin 11) (Fin 9) (Fin 10) (Fin 400);
    Frame.mkRow 48600 (Fin 10) (Fin 14) (Fin 10) (Fin 13) (Fin 900);
    Frame.mkRow 52200 (Fin 13) (Fin 15) (Fin 12) (Fin 14) (Fin 1100);
    Frame.mkRow 55800 (Fin 14) (Fin 14) (Fin 11) (Fin 12) (Fin 2000);
    Frame.mkRow 120600 (Fin 12) (Fin 13) (Fin 11) (Fin 13) (Fin 800) ].

(** An index in UTC: a day starts every 86400 seconds. *)
Definition utc : Frame.Timezone.
Proof.
  refine (Frame.mkTimezone (fun t => (t / 86400 * 86400)%Z) _ _).
  - intros t. Z.div_mod_to_equations. lia.
  - intros t u H. Z.div_mod_to_equations. lia.
Defined.

(** An index whose clocks go forward one hour on the second day: the day
    that starts at 86400 lasts 23 hours. *)
Definition clocks_forward : Frame.Timezone.
Proof.
  refine (Frame.mkTimezone
            (fun t => if (t <? 169200)%Z
                      then (t / 86400 * 86400)%Z
                      else (169200 + (t - 169200) / 86400 * 86400)%Z) _ _).
  - intros t. destruct (t <? 169200)%Z; Z.div_mod_to_equations; lia.
  - intros t u H.
    destruct (t <? 169200)%Z eqn:Et, (u <? 169200)%Z eqn:Eu;
      try apply Z.ltb_lt in Et; try apply Z.ltb_ge in Et;
      try apply Z.ltb_lt in Eu; try apply Z.ltb_ge in Eu;
      rewrite ?Et, ?Eu in *; Z.div_mod_to_equations; lia.
Defined.

Definition sidebar (interval : string) : Dashboard.Inputs :=
  Dashboard.mkInputs "AAPL" "1y" interval 20 2 true.

(** Fundamentals provider down, market data available. *)
Definition rug_down : Dashboard.Providers :=
  Dashboard.mkProviders
    (fun _ => Dashboard.Raise "connection refused"%string)
    (fun _ => Dashboard.Raise "connection refused"%string)
    (fun _ _ _ => Dashboard.Ok (utc, hourly_bars)).

(** Market-data provider returning no bars. *)
Definition no_bars : Dashboard.Providers :=
  Dashboard.mkProviders
    (fun _ => Dashboard.Ok [("name", "Apple Inc."); ("price", "190.5")]%string)
    (fun _ => Dashboard.Ok [("change", "1.2"); ("changePercent", "0.63")]%string)
    (fun _ _ _ => Dashboard.Ok (utc, [])).

End Inputs.
Import Inputs.

(* ================================================================== *)
(** ** Reference definitions on frames *)
(* ================================================================== *)

Module FrameRef.

(** The number held by a field that is not missing or infinite. *)
Definition value (a : float64) : R :=
  match a with Fin r => r | _ => 0 end.

(** Sum of the volumes of all rows. *)
Definition total_volume (df : Frame.DataFrame) : R :=
  Rsum (map (fun r => value (Frame.Volume r)) df).

(** A bar whose open and close lie between its low and its high. *)
Definition consistent_bar (r : Frame.Row) : Prop :=
  value (Frame.Low r) <= value (Frame.Open r) <= value (Frame.High r)
  /\ value (Frame.Low r) <= value (Frame.Close r) <= value (Frame.High r).

End FrameRef.
Import FrameRef.

(* ================================================================== *)
(** ** Further concrete inputs *)
(* ================================================================== *)

Module MoreInputs.

(** Sidebar values with a chosen interval and Bollinger window. *)
Definition sidebar_with (interval : string) (window : Z) : Dashboard.Inputs :=
  Dashboard.mkInputs "AAPL" "1y" interval window 2 true.

(** Market-data provider down, fundamentals available. *)
Definition yf_down : Dashboard.Providers :=
  Dashboard.mkProviders
    (fun _ => Dashboard.Ok [("name", "Apple Inc."); ("price", "190.5")]%string)
    (fun _ => Dashboard.Ok [("change", "1.2"); ("changePercent", "0.63")]%string)
    (fun _ _ _ => Dashboard.Raise "no connection"%string).

(** Fundamentals provider answering with empty records. *)
Definition bare_quotes : Dashboard.Providers :=
  Dashboard.mkProviders
    (fun _ => Dashboard.Ok [])
    (fun _ => Dashboard.Ok [])
    (fun _ _ _ => Dashboard.Ok (utc, hourly_bars)).

(** Both providers up. *)
Definition all_up : Dashboard.Providers :=
  Dashboard.mkProviders
    (fun _ => Dashboard.Ok [("name", "Apple Inc."); ("price", "190.5")]%string)
    (fun _ => Dashboard.Ok [("change", "1.2"); ("changePercent", "0.63")]%string)
    (fun _ _ _ => Dashboard.Ok (utc, hourly_bars)).

(** Market data that exists for every interval except a native 4h one. *)
Definition no_native_4h : Dashboard.Providers :=
  Dashboard.mkProviders
    (fun _ => Dashboard.Ok [])
    (fun _ => Dashboard.Ok [])
    (fun _ _ i => if String.eqb i "4h"
                  then Dashboard.Raise "interval not supported"%string
                  else Dashboard.Ok (utc, hourly_bars)).

End MoreInputs.
Import MoreInputs.

(* ================================================================== *)
(** ** Facts about the float64 operations *)
(* ================================================================== *)

Module F64Facts.

Lemma is_zero_true (r : R) : r = 0 -> is_zero r = true.
Proof. intros H. unfold is_zero. destruct (Req_dec_T r 0); congruence. Qed.

Lemma is_zero_false (r : R) : r <> 0 -> is_zero r = false.
Proof. intros H. unfold is_zero. destruct (Req_dec_T r 0); congruence. Qed.

Lemma is_neg_false (r : R) : 0 <= r -> is_neg r = false.
Proof. intros H. unfold is_neg. destruct (Rlt_dec r 0); [lra | reflexivity]. Qed.

Lemma fdiv_fin (x y : R) : y <> 0 -> fdiv (Fin x) (Fin y) = Fin (x / y).
Proof. intros H. simpl. now rewrite is_zero_false. Qed.


Lemma fdiv_zero_zero : fdiv (Fin 0) (Fin 0) = NaN.
Proof. simpl. now rewrite is_zero_true. Qed.

Lemma fsqrt_nonneg (x : R) : 0 <= x -> fsqrt (Fin x) = Fin (sqrt x).
Proof. intros H. simpl. now rewrite is_neg_false. Qed.

Lemma fltb_fin_true (x y : R) : x < y -> fltb (Fin x) (Fin y) = true.
Proof. intros H. simpl. destruct (Rlt_dec x y); [reflexivity | lra]. Qed.

Lemma fltb_fin_false (x y : R) : y <= x -> fltb (Fin x) (Fin y) = false.
Proof. intros H. simpl. destruct (Rlt_dec x y); [lra | reflexivity]. Qed.

Lemma INR_pos (n : nat) : (0 < n)%nat -> 0 < INR n.
Proof. intros H. apply lt_0_INR. exact H. Qed.

End F64Facts.
Import F64Facts.

(* ================================================================== *)
(** ** Facts about the Series operations *)
(* ================================================================== *)

Module SeriesFacts.

Lemma binop_length f (a b : Series) :
  length (binop f a b) = Nat.min (length a) (length b).
Proof. unfold binop. now rewrite length_map, length_combine. Qed.

(** Row [i] of an element-wise operation, for an operation that keeps NaN. *)
Lemma binop_nth f (a b : Series) (i : nat) :
  f NaN NaN = NaN -> length a = length b ->
  nth i (binop f a b) NaN = f (nth i a NaN) (nth i b NaN).
Proof.
  intros Hf Hlen. unfold binop.
  destruct (Nat.lt_ge_cases i (length a)) as [Hi | Hi].
  - rewrite (nth_indep _ NaN (f (fst (NaN, NaN)) (snd (NaN, NaN))))
      by (rewrite length_map, length_combine; lia).
    rewrite (map_nth (fun p : float64 * float64 => f (fst p) (snd p))).
    now rewrite combine_nth.
  - rewrite !nth_overflow; try lia.
    + now rewrite Hf.
    + rewrite length_map, length_combine. lia.
Qed.

Lemma map_nth_nan (f : float64 -> float64) (a : Series) (i : nat) :
  f NaN = NaN -> nth i (map f a) NaN = f (nth i a NaN).
Proof. intros Hf. rewrite <- Hf at 1. apply map_nth. Qed.

Lemma where_gt (a : Series) (k other : float64) :
  where_ a (gt a k) other = map (fun x => if fltb k x then x else other) a.
Proof.
  unfold where_, gt. induction a as [| x a IH]; simpl; [reflexivity |].
  now rewrite IH.
Qed.

Lemma where_lt (a : Series) (k other : float64) :
  where_ a (lt a k) other = map (fun x => if fltb x k then x else other) a.
Proof.
  unfold where_, lt. induction a as [| x a IH]; simpl; [reflexivity |].
  now rewrite IH.
Qed.

Lemma diff_from_length (p : float64) (s : Series) :
  length (diff_from p s) = length s.
Proof. revert p. induction s as [| x s IH]; intros p; simpl; auto. Qed.

Lemma diff_length (s : Series) : length (diff s) = length s.
Proof. destruct s; simpl; [reflexivity |]. now rewrite diff_from_length. Qed.

Lemma diff_from_nth (p : R) (t : list R) (j : nat) :
  (j < length t)%nat ->
  nth j (diff_from (Fin p) (map Fin t)) NaN = Fin (nth j t 0 - nth j (p :: t) 0).
Proof.
  revert p j. induction t as [| x t IH]; intros p j Hj; simpl in Hj; [lia |].
  destruct j as [| j].
  - reflexivity.
  - cbn [map diff_from nth]. rewrite IH by lia. reflexivity.
Qed.

(** Row [j >= 1] of [diff] is the change from the previous row. *)
Lemma diff_nth (closes : list R) (j : nat) :
  (1 <= j < length closes)%nat ->
  nth j (diff (map Fin closes)) NaN = Fin (change closes j).
Proof.
  intros [H1 H2]. destruct closes as [| x t]; simpl in H2; [lia |].
  destruct j as [| j]; [lia |].
  cbn [map diff nth]. rewrite diff_from_nth by lia.
  unfold change. replace (S j - 1)%nat with j by lia. reflexivity.
Qed.

Lemma diff_nth_0 (s : Series) : nth 0 (diff s) NaN = NaN.
Proof. destruct s; reflexivity. Qed.

Lemma firstn_skipn_seq {A : Type} (d : A) (l : list A) (k n : nat) :
  (k + n <= length l)%nat ->
  firstn n (skipn k l) = map (fun j => nth j l d) (seq k n).
Proof.
  revert k l. induction n as [| n IH]; intros k l H; [reflexivity |].
  cbn [seq map].
  destruct (skipn k l) as [| x t] eqn:E.
  - assert (length (skipn k l) = 0%nat) by now rewrite E.
    rewrite length_skipn in *. lia.
  - cbn [firstn]. f_equal.
    + assert (Hn : nth 0 (skipn k l) d = x) by now rewrite E.
      rewrite nth_skipn in Hn. now rewrite Nat.add_0_r in Hn.
    + rewrite <- IH by lia.
      replace (S k) with (1 + k)%nat by lia.
      rewrite <- skipn_skipn. now rewrite E.
Qed.

Lemma window_at_seq {A : Type} (d : A) (w i : nat) (l : list A) :
  (i < length l)%nat ->
  window_at w i l = map (fun j => nth j l d) (seq (i + 1 - w) (Nat.min (i + 1) w)).
Proof. intros H. unfold window_at. apply firstn_skipn_seq. lia. Qed.

Lemma window_at_map {A B : Type} (f : A -> B) (w i : nat) (l : list A) :
  window_at w i (map f l) = map f (window_at w i l).
Proof. unfold window_at. now rewrite skipn_map, firstn_map. Qed.

Lemma window_at_slice (w i : nat) (l : list R) :
  (i < length l)%nat ->
  window_at w i l = slice l (i + 1 - w) (Nat.min (i + 1) w).
Proof. intros H. unfold slice. now apply window_at_seq. Qed.

Lemma slice_length (l : list R) (lo len : nat) : length (slice l lo len) = len.
Proof. unfold slice. now rewrite length_map, length_seq. Qed.

Lemma rolling_length agg (w : nat) (s : Series) :
  length (rolling agg w s) = length s.
Proof. unfold rolling. now rewrite length_map, length_seq. Qed.

Lemma rolling_nth agg (w i : nat) (s : Series) :
  (i < length s)%nat ->
  nth i (rolling agg w s) NaN = agg (window_at w i s).
Proof.
  intros H. unfold rolling.
  rewrite (nth_indep _ NaN (agg (window_at w 0 s)))
    by (rewrite length_map, length_seq; lia).
  rewrite (map_nth (fun i => agg (window_at w i s))).
  now rewrite seq_nth.
Qed.

Lemma observations_fin (l : list R) : observations (map Fin l) = map Fin l.
Proof.
  unfold observations. induction l as [| x l IH]; simpl; [reflexivity |].
  now rewrite IH.
Qed.

Lemma rolling_values_fin (l : list R) : rolling_values (map Fin l) = map Fin l.
Proof.
  unfold rolling_values. induction l as [| x l IH]; simpl; [reflexivity |].
  now rewrite IH.
Qed.

Lemma fsum_fin_from (a : R) (l : list R) :
  fold_left fadd (map Fin l) (Fin a) = Fin (a + Rsum l).
Proof.
  revert a. induction l as [| x l IH]; intros a; simpl.
  - f_equal. lra.
  - rewrite IH. f_equal. lra.
Qed.

Lemma fsum_fin (l : list R) : fsum (map Fin l) = Fin (Rsum l).
Proof. unfold fsum. rewrite fsum_fin_from. f_equal. lra. Qed.

Lemma mean_of_fin (l : list R) :
  l <> [] -> mean_of (map Fin l) = Fin (arithmetic_mean l).
Proof.
  intros H. unfold mean_of, arithmetic_mean.
  rewrite fsum_fin, length_map. apply fdiv_fin.
  apply not_0_INR. destruct l; simpl; [congruence | lia].
Qed.

Lemma window_mean_fin (minp : nat) (l : list R) :
  (minp <= length l)%nat -> (0 < length l)%nat ->
  window_mean minp (map Fin l) = Fin (arithmetic_mean l).
Proof.
  intros H1 H2. unfold window_mean. rewrite rolling_values_fin, length_map.
  replace (minp <=? length l)%nat with true by (symmetry; now apply Nat.leb_le).
  replace (0 <? length l)%nat with true by (symmetry; now apply Nat.ltb_lt).
  simpl. apply mean_of_fin. destruct l; simpl in *; [lia | congruence].
Qed.

Lemma window_mean_short (minp : nat) (l : list R) :
  (length l < minp)%nat -> window_mean minp (map Fin l) = NaN.
Proof.
  intros H. unfold window_mean. rewrite rolling_values_fin, length_map.
  replace (minp <=? length l)%nat with false
    by (symmetry; apply Nat.leb_gt; lia).
  reflexivity.
Qed.

End SeriesFacts.
Import SeriesFacts.

(* ================================================================== *)
(** ** Facts about the indicator columns *)
(* ================================================================== *)

Module IndicatorFacts.

Lemma Rsum_nonneg (l : list R) : (forall x, In x l -> 0 <= x) -> 0 <= Rsum l.
Proof.
  induction l as [| x l IH]; intros H; simpl; [lra |].
  assert (0 <= x) by (apply H; now left).
  assert (0 <= Rsum l) by (apply IH; intros y Hy; apply H; now right).
  lra.
Qed.

Lemma Rsum_zero (l : list R) : (forall x, In x l -> x = 0) -> Rsum l = 0.
Proof.
  induction l as [| x l IH]; intros H; simpl; [reflexivity |].
  rewrite (H x) by now left. rewrite IH; [lra |].
  intros y Hy. apply H. now right.
Qed.

Lemma mean_nonneg (l : list R) :
  l <> [] -> (forall x, In x l -> 0 <= x) -> 0 <= arithmetic_mean l.
Proof.
  intros Hl H. unfold arithmetic_mean.
  apply Rsum_nonneg in H.
  assert (0 < INR (length l)) by (apply INR_pos; destruct l; simpl; [congruence | lia]).
  apply Rmult_le_pos; [exact H |]. left. now apply Rinv_0_lt_compat.
Qed.

Lemma sma_nth (w : nat) (closes : list R) (i : nat) :
  (1 <= w)%nat -> (i < length closes)%nat ->
  nth i (SMA w (map Fin closes)) NaN
  = Fin (arithmetic_mean (slice closes (i + 1 - w) (Nat.min (i + 1) w))).
Proof.
  intros Hw Hi. unfold SMA, rolling_mean.
  rewrite rolling_nth by now rewrite length_map.
  rewrite window_at_map, window_at_slice by exact Hi.
  apply window_mean_fin; rewrite slice_length; lia.
Qed.

Lemma gain_raw_length (s : Series) : length (gain_raw s) = length s.
Proof.
  unfold gain_raw. rewrite where_gt, length_map. apply diff_length.
Qed.

Lemma loss_raw_length (s : Series) : length (loss_raw s) = length s.
Proof.
  unfold loss_raw, neg. rewrite where_lt, !length_map. apply diff_length.
Qed.

Lemma gain_length (s : Series) : length (gain s) = length s.
Proof. unfold gain, rolling_mean. rewrite rolling_length. apply gain_raw_length. Qed.

Lemma loss_length (s : Series) : length (loss s) = length s.
Proof. unfold loss, rolling_mean. rewrite rolling_length. apply loss_raw_length. Qed.

Lemma Gain_nonneg (closes : list R) (j : nat) : 0 <= Gain closes j.
Proof. unfold Gain. apply Rmax_r. Qed.

Lemma Loss_nonneg (closes : list R) (j : nat) : 0 <= Loss closes j.
Proof. unfold Loss. apply Rmax_r. Qed.

Lemma gain_row_nonneg (closes : list R) (j : nat) : 0 <= gain_row closes j.
Proof. unfold gain_row. destruct (j =? 0)%nat; [lra | apply Gain_nonneg]. Qed.

Lemma loss_row_nonneg (closes : list R) (j : nat) : 0 <= loss_row closes j.
Proof. unfold loss_row. destruct (j =? 0)%nat; [lra | apply Loss_nonneg]. Qed.

(** The column the gains are averaged over, row by row. *)
Lemma gain_raw_fin (closes : list R) :
  gain_raw (map Fin closes)
  = map Fin (map (gain_row closes) (seq 0 (length closes))).
Proof.
  apply (nth_ext _ _ NaN NaN).
  - now rewrite gain_raw_length, !length_map, length_seq.
  - intros j Hj. rewrite gain_raw_length, length_map in Hj.
    unfold gain_raw. rewrite where_gt.
    set (clip := fun x => if fltb (Fin 0) x then x else Fin 0).
    rewrite (nth_indep _ NaN (clip NaN))
      by (rewrite length_map, diff_length, length_map; exact Hj).
    rewrite (map_nth clip).
    rewrite (nth_indep (map Fin _) NaN (Fin (gain_row closes 0)))
      by (rewrite !length_map, length_seq; exact Hj).
    rewrite (map_nth Fin), (map_nth (gain_row closes)), seq_nth by exact Hj.
    cbn [Nat.add]. unfold gain_row, delta.
    destruct j as [| j].
    + rewrite diff_nth_0. reflexivity.
    + rewrite diff_nth by lia. cbn [Nat.eqb]. unfold clip, Gain.
      set (d := change closes (S j)).
      destruct (Rlt_dec 0 d) as [Hd | Hd].
      * rewrite fltb_fin_true by exact Hd. f_equal.
        rewrite Rmax_left; lra.
      * rewrite fltb_fin_false by lra. f_equal.
        rewrite Rmax_right; lra.
Qed.

Lemma loss_raw_fin (closes : list R) :
  loss_raw (map Fin closes)
  = map Fin (map (loss_row closes) (seq 0 (length closes))).
Proof.
  apply (nth_ext _ _ NaN NaN).
  - now rewrite loss_raw_length, !length_map, length_seq.
  - intros j Hj. rewrite loss_raw_length, length_map in Hj.
    unfold loss_raw, neg. rewrite where_lt, map_map.
    set (clip := fun x => fneg (if fltb x (Fin 0) then x else Fin 0)).
    rewrite (nth_indep _ NaN (clip NaN))
      by (rewrite length_map, diff_length, length_map; exact Hj).
    rewrite (map_nth clip).
    rewrite (nth_indep (map Fin _) NaN (Fin (loss_row closes 0)))
      by (rewrite !length_map, length_seq; exact Hj).
    rewrite (map_nth Fin), (map_nth (loss_row closes)), seq_nth by exact Hj.
    cbn [Nat.add]. unfold loss_row, delta.
    destruct j as [| j].
    + rewrite diff_nth_0. unfold clip. simpl. f_equal. lra.
    + rewrite diff_nth by lia. cbn [Nat.eqb]. unfold clip, Loss.
      set (d := change closes (S j)).
      destruct (Rlt_dec d 0) as [Hd | Hd].
      * rewrite fltb_fin_true by exact Hd. simpl. f_equal.
        rewrite Rmax_left; lra.
      * rewrite fltb_fin_false by lra. simpl. f_equal.
        rewrite Rmax_right; lra.
Qed.

End IndicatorFacts.
Import IndicatorFacts.

Module RsiFacts.

Lemma nth_map_seq (row : nat -> R) (n j : nat) :
  (j < n)%nat -> nth j (map row (seq 0 n)) 0 = row j.
Proof.
  intros H. rewrite (nth_indep _ 0 (row 0%nat)) by (now rewrite length_map, length_seq).
  rewrite (map_nth row), seq_nth by exact H. reflexivity.
Qed.

(** The strict 14-row average over a column of finite rows. *)
Lemma avg14_nth (row : nat -> R) (n i : nat) :
  (i < n)%nat ->
  nth i (rolling_mean 14 14 (map Fin (map row (seq 0 n)))) NaN
  = if (13 <=? i)%nat
    then Fin (arithmetic_mean (map row (seq (i - 13) 14)))
    else NaN.
Proof.
  intros Hi. unfold rolling_mean.
  rewrite rolling_nth by (now rewrite !length_map, length_seq).
  rewrite window_at_map.
  rewrite (window_at_seq 0) by (now rewrite length_map, length_seq).
  rewrite (map_ext_in _ row).
  2:{ intros j Hj. apply in_seq in Hj. apply nth_map_seq. lia. }
  destruct (13 <=? i)%nat eqn:E.
  - apply Nat.leb_le in E.
    replace (i + 1 - 14)%nat with (i - 13)%nat by lia.
    replace (Nat.min (i + 1) 14) with 14%nat by lia.
    apply window_mean_fin; rewrite length_map, length_seq; lia.
  - apply Nat.leb_gt in E.
    apply window_mean_short. rewrite length_map, length_seq. lia.
Qed.

Lemma gain_nth (closes : list R) (i : nat) :
  (i < length closes)%nat ->
  nth i (gain (map Fin closes)) NaN
  = if (13 <=? i)%nat
    then Fin (arithmetic_mean (map (gain_row closes) (seq (i - 13) 14)))
    else NaN.
Proof. intros H. unfold gain. rewrite gain_raw_fin. now apply avg14_nth. Qed.

Lemma loss_nth (closes : list R) (i : nat) :
  (i < length closes)%nat ->
  nth i (loss (map Fin closes)) NaN
  = if (13 <=? i)%nat
    then Fin (arithmetic_mean (map (loss_row closes) (seq (i - 13) 14)))
    else NaN.
Proof. intros H. unfold loss. rewrite loss_raw_fin. now apply avg14_nth. Qed.

Lemma rsi_nth (s : Series) (i : nat) :
  nth i (RSI s) NaN = rsi_point (nth i (gain s) NaN) (nth i (loss s) NaN).
Proof.
  unfold RSI, scalar_sub, scalar_div, scalar_add, rs, div, rsi_point.
  rewrite (map_nth_nan (fun x => fsub (Fin 100) x)) by reflexivity.
  rewrite (map_nth_nan (fun x => fdiv (Fin 100) x)) by reflexivity.
  rewrite (map_nth_nan (fun x => fadd (Fin 1) x)) by reflexivity.
  rewrite binop_nth; [reflexivity | reflexivity |].
  now rewrite gain_length, loss_length.
Qed.

Lemma rsi_length (s : Series) : length (RSI s) = length s.
Proof.
  unfold RSI, scalar_sub, scalar_div, scalar_add, rs, div.
  rewrite !length_map, binop_length, gain_length, loss_length. lia.
Qed.

(** Both averages are missing together, or both are finite and not negative. *)
Lemma averages_shape (closes : list R) (i : nat) :
  (nth i (gain (map Fin closes)) NaN = NaN
   /\ nth i (loss (map Fin closes)) NaN = NaN)
  \/ (exists g l, nth i (gain (map Fin closes)) NaN = Fin g
                  /\ nth i (loss (map Fin closes)) NaN = Fin l
                  /\ 0 <= g /\ 0 <= l).
Proof.
  destruct (Nat.lt_ge_cases i (length closes)) as [Hi | Hi].
  - rewrite gain_nth, loss_nth by exact Hi.
    destruct (13 <=? i)%nat; [right | left; split; reflexivity].
    eexists; eexists. split; [reflexivity |]. split; [reflexivity |].
    split; apply mean_nonneg; try discriminate;
      intros x Hx; apply in_map_iff in Hx; destruct Hx as [j [<- _]].
    + apply gain_row_nonneg.
    + apply loss_row_nonneg.
  - left. split; apply nth_overflow.
    + now rewrite gain_length, length_map.
    + now rewrite loss_length, length_map.
Qed.

Lemma rsi_point_flat : rsi_point (Fin 0) (Fin 0) = NaN.
Proof. unfold rsi_point. now rewrite fdiv_zero_zero. Qed.



(** With an infinite ratio of either sign the formula gives 100. *)
Lemma rsi_of_infinite_rs :
  fsub (Fin 100) (fdiv (Fin 100) (fadd (Fin 1) PInf)) = Fin (100 - 0)
  /\ fsub (Fin 100) (fdiv (Fin 100) (fadd (Fin 1) NInf)) = Fin (100 - 0).
Proof. split; reflexivity. Qed.

End RsiFacts.
Import RsiFacts.

(* ================================================================== *)
(** ** Moving average *)
(* ================================================================== *)

(** C1: for a non-empty close-price sequence of length n and a window
    w >= 1, the SMA column has length n, its first row is the first close,
    row i < w-1 is the mean of the first i+1 closes, row i >= w-1 is the
    mean of closes[i-w+1..i]; w may exceed n, and the window arguments are
    accepted. *)
Theorem sma_shrinking_window (closes : list R) (w : nat) :
  closes <> [] -> (1 <= w)%nat ->
  let sma := SMA w (map Fin closes) in
  Dashboard.rolling_args (Z.of_nat w) 1 = Dashboard.Ok w
  /\ length sma = length closes
  /\ nth 0 sma NaN = Fin (nth 0 closes 0)
  /\ (forall i, (i < length closes)%nat -> (i + 1 < w)%nat ->
        nth i sma NaN = Fin (arithmetic_mean (slice closes 0 (i + 1))))
  /\ (forall i, (i < length closes)%nat -> (w - 1 <= i)%nat ->
        nth i sma NaN = Fin (arithmetic_mean (slice closes (i + 1 - w) w)))
  /\ (forall i, (i < length closes)%nat ->
        nth i sma NaN
        = Fin (arithmetic_mean
                 (slice closes (i + 1 - Nat.min (i + 1) w) (Nat.min (i + 1) w)))).
Proof.
  intros Hne Hw sma.
  assert (Hlen : (0 < length closes)%nat)
    by (destruct closes; simpl; [congruence | lia]).
  split.
  { unfold Dashboard.rolling_args.
    replace (Z.of_nat w <? Z.of_nat 1)%Z with false
      by (symmetry; apply Z.ltb_ge; lia).
    now rewrite Nat2Z.id. }
  split.
  { unfold sma, SMA, rolling_mean. now rewrite rolling_length, length_map. }
  split.
  { unfold sma. rewrite sma_nth by assumption.
    replace (0 + 1 - w)%nat with 0%nat by lia.
    replace (Nat.min (0 + 1) w) with 1%nat by lia.
    f_equal. unfold arithmetic_mean, slice. simpl. lra. }
  split; [| split].
  - intros i Hi Hiw. unfold sma. rewrite sma_nth by assumption.
    replace (i + 1 - w)%nat with 0%nat by lia.
    now replace (Nat.min (i + 1) w) with (i + 1)%nat by lia.
  - intros i Hi Hiw. unfold sma. rewrite sma_nth by assumption.
    now replace (Nat.min (i + 1) w) with w by lia.
  - intros i Hi. unfold sma. rewrite sma_nth by assumption.
    now replace (i + 1 - Nat.min (i + 1) w)%nat with (i + 1 - w)%nat by lia.
Qed.

(** The scenario closes with w = 3: SMA[2] = mean(10, 11, 12) = 11. *)
Lemma sma_shrinking_window_witness :
  scenario_closes <> [] /\ (1 <= 3)%nat
  /\ nth 2 (SMA 3 (map Fin scenario_closes)) NaN = Fin 11.
Proof.
  assert (H1 : scenario_closes <> []) by discriminate.
  assert (H2 : (1 <= 3)%nat) by lia.
  split; [exact H1 | split; [exact H2 |]].
  destruct (sma_shrinking_window scenario_closes 3 H1 H2)
    as (_ & _ & _ & _ & H & _).
  rewrite (H 2%nat) by (simpl; lia).
  f_equal. unfold arithmetic_mean, slice. simpl. lra.
Defined.

(* ================================================================== *)
(** ** RSI *)
(* ================================================================== *)

(** Evaluates an average of gain or loss rows over explicit closes. *)
Ltac eval_rows closes :=
  unfold arithmetic_mean, gain_row, loss_row, Gain, Loss, change, closes, Rmax;
  cbn [map seq nth Nat.eqb Nat.sub length Rsum fold_right];
  repeat match goal with
         | |- context [Rle_dec ?a ?b] => destruct (Rle_dec a b); try lra
         end;
  rewrite INR_IZR_INZ; simpl; lra.



(** On fourteen closes (thirteen changes) the RSI of row 13 is a number:
    the average gain is 12/14, the average loss 4/14. *)
Lemma rsi_defined_at_row_13 :
  nth 13 (RSI (map Fin fourteen_closes)) NaN = Fin 75
  /\ ~ (forall i, (i < 14)%nat -> nth i (RSI (map Fin fourteen_closes)) NaN = NaN).
Proof.
  assert (H : nth 13 (RSI (map Fin fourteen_closes)) NaN = Fin 75).
  { rewrite rsi_nth, gain_nth, loss_nth by (simpl; lia).
    cbn [Nat.leb Nat.sub].
    assert (Hg : arithmetic_mean (map (gain_row fourteen_closes) (seq 0 14)) = 12 / 14).
    { eval_rows fourteen_closes. }
    assert (Hl : arithmetic_mean (map (loss_row fourteen_closes) (seq 0 14)) = 4 / 14).
    { eval_rows fourteen_closes. }
    rewrite Hg, Hl. unfold rsi_point.
    rewrite fdiv_fin by lra. cbn [fadd].
    rewrite fdiv_fin by lra. cbn [fsub fneg fadd]. f_equal. lra. }
  split; [exact H |].
  intros Hall. rewrite (Hall 13%nat) in H by lia. discriminate.
Qed.

(** C3 (amended): the changes are split into Gain = max(change, 0) and
    Loss = max(-change, 0) and averaged over a strict 14-row window.  The
    averages and the RSI are missing for every row i < 13; at row 13 the
    window holds the thirteen changes that exist and the first row, which
    counts as zero gain and zero loss, so the sums are still divided by 14;
    from row 14 on the averages run over the 14 most recent changes. *)
Theorem rsi_strict_window (closes : list R) (i : nat) :
  (i < length closes)%nat ->
  let g := nth i (gain (map Fin closes)) NaN in
  let l := nth i (loss (map Fin closes)) NaN in
  nth i (RSI (map Fin closes)) NaN = rsi_point g l
  /\ ((i < 13)%nat ->
      g = NaN /\ l = NaN /\ nth i (RSI (map Fin closes)) NaN = NaN)
  /\ (i = 13%nat ->
      g = Fin (Rsum (map (Gain closes) (seq 1 13)) / 14)
      /\ l = Fin (Rsum (map (Loss closes) (seq 1 13)) / 14))
  /\ ((14 <= i)%nat ->
      g = Fin (arithmetic_mean (map (Gain closes) (seq (i - 13) 14)))
      /\ l = Fin (arithmetic_mean (map (Loss closes) (seq (i - 13) 14)))).
Proof.
  intros Hi g l. split; [apply rsi_nth |].
  assert (Hg := gain_nth closes i Hi). assert (Hl := loss_nth closes i Hi).
  fold g in Hg. fold l in Hl.
  split; [| split].
  - intros Hlt. rewrite rsi_nth. fold g l.
    replace (13 <=? i)%nat with false in * by (symmetry; apply Nat.leb_gt; lia).
    rewrite Hg, Hl. repeat split; reflexivity.
  - intros ->. cbn [Nat.leb Nat.sub] in Hg, Hl. rewrite Hg, Hl.
    unfold arithmetic_mean. rewrite !length_map, !length_seq.
    replace (INR 14) with 14 by (rewrite INR_IZR_INZ; reflexivity).
    change (seq 0 14) with (0%nat :: seq 1 13). cbn [map Rsum fold_right].
    unfold gain_row at 1, loss_row at 1. cbn [Nat.eqb].
    rewrite (map_ext_in (gain_row closes) (Gain closes)).
    2:{ intros j Hj. apply in_seq in Hj. unfold gain_row.
        destruct j; [lia | reflexivity]. }
    rewrite (map_ext_in (loss_row closes) (Loss closes)).
    2:{ intros j Hj. apply in_seq in Hj. unfold loss_row.
        destruct j; [lia | reflexivity]. }
    split; f_equal; unfold Rsum; lra.
  - intros Hge.
    replace (13 <=? i)%nat with true in * by (symmetry; apply Nat.leb_le; lia).
    rewrite Hg, Hl.
    rewrite (map_ext_in (gain_row closes) (Gain closes)).
    2:{ intros j Hj. apply in_seq in Hj. unfold gain_row.
        destruct j; [lia | reflexivity]. }
    rewrite (map_ext_in (loss_row closes) (Loss closes)).
    2:{ intros j Hj. apply in_seq in Hj. unfold loss_row.
        destruct j; [lia | reflexivity]. }
    split; reflexivity.
Qed.

Lemma rsi_strict_window_witness :
  (13 < length fourteen_closes)%nat
  /\ nth 13 (gain (map Fin fourteen_closes)) NaN
     = Fin (Rsum (map (Gain fourteen_closes) (seq 1 13)) / 14).
Proof.
  assert (H : (13 < length fourteen_closes)%nat) by (simpl; lia).
  split; [exact H |].
  destruct (rsi_strict_window fourteen_closes 13 H) as (_ & _ & H13 & _).
  exact (proj1 (H13 eq_refl)).
Defined.

(** C10: at a row i >= 14 whose 14 trailing changes are all zero, the
    average gain and the average loss are both 0 and the RSI is the missing
    value; the rule that gives 100 needs a positive average gain. *)
Theorem rsi_flat_run (closes : list R) (i : nat) :
  (14 <= i < length closes)%nat ->
  (forall j, (i - 13 <= j <= i)%nat -> change closes j = 0) ->
  nth i (gain (map Fin closes)) NaN = Fin 0
  /\ nth i (loss (map Fin closes)) NaN = Fin 0
  /\ nth i (RSI (map Fin closes)) NaN = NaN.
Proof.
  intros [Hge Hlt] Hflat.
  assert (Hg : nth i (gain (map Fin closes)) NaN = Fin 0).
  { rewrite gain_nth by exact Hlt.
    replace (13 <=? i)%nat with true by (symmetry; apply Nat.leb_le; lia).
    f_equal. unfold arithmetic_mean. rewrite Rsum_zero; [lra |].
    intros x Hx. apply in_map_iff in Hx. destruct Hx as [j [<- Hj]].
    apply in_seq in Hj. unfold gain_row, Gain.
    destruct j; [lia |]. cbn [Nat.eqb]. rewrite Hflat by lia.
    apply Rmax_left. lra. }
  assert (Hl : nth i (loss (map Fin closes)) NaN = Fin 0).
  { rewrite loss_nth by exact Hlt.
    replace (13 <=? i)%nat with true by (symmetry; apply Nat.leb_le; lia).
    f_equal. unfold arithmetic_mean. rewrite Rsum_zero; [lra |].
    intros x Hx. apply in_map_iff in Hx. destruct Hx as [j [<- Hj]].
    apply in_seq in Hj. unfold loss_row, Loss.
    destruct j; [lia |]. cbn [Nat.eqb]. rewrite Hflat by lia.
    apply Rmax_right. lra. }
  split; [exact Hg | split; [exact Hl |]].
  rewrite rsi_nth, Hg, Hl. apply rsi_point_flat.
Qed.

Lemma rsi_flat_run_witness :
  (14 <= 14 < length flat_closes)%nat
  /\ nth 14 (RSI (map Fin flat_closes)) NaN = NaN.
Proof.
  assert (H : (14 <= 14 < length flat_closes)%nat) by (simpl; lia).
  split; [exact H |].
  apply (rsi_flat_run flat_closes 14 H).
  intros j Hj. unfold change.
  assert (Hn : forall k, (k < 15)%nat -> nth k flat_closes 0 = 5).
  { intros k Hk. unfold flat_closes. now apply nth_repeat_lt. }
  rewrite !Hn by lia. lra.
Defined.

(* ================================================================== *)
(** ** Bollinger bands *)
(* ================================================================== *)

Module BandFacts.

Lemma Rsum_squares_nonneg (m : R) (l : list R) :
  0 <= Rsum (map (fun x => (x - m) * (x - m)) l).
Proof.
  apply Rsum_nonneg. intros y Hy. apply in_map_iff in Hy.
  destruct Hy as [x [<- _]]. apply (Rle_0_sqr (x - m)).
Qed.

Lemma window_std_fin (l : list R) :
  (2 <= length l)%nat -> window_std 1 (map Fin l) = Fin (sample_std l).
Proof.
  intros H. unfold window_std. rewrite rolling_values_fin, length_map.
  replace (1 <=? length l)%nat with true by (symmetry; apply Nat.leb_le; lia).
  replace (1 <? length l)%nat with true by (symmetry; apply Nat.ltb_lt; lia).
  cbn [andb].
  rewrite mean_of_fin by (destruct l; simpl in *; [lia | congruence]).
  rewrite map_map. cbn [fsub fneg fadd fmul].
  rewrite <- (map_map (fun x => (x + - arithmetic_mean l) * (x + - arithmetic_mean l)) Fin).
  rewrite fsum_fin.
  assert (Hn : 0 < INR (length l - 1)) by (apply INR_pos; lia).
  rewrite fdiv_fin by lra.
  rewrite fsqrt_nonneg; [reflexivity |].
  apply Rmult_le_pos; [apply Rsum_squares_nonneg |].
  left. now apply Rinv_0_lt_compat.
Qed.

Lemma window_std_single (l : list R) :
  (length l <= 1)%nat -> window_std 1 (map Fin l) = NaN.
Proof.
  intros H. unfold window_std. rewrite rolling_values_fin, length_map.
  replace (1 <? length l)%nat with false by (symmetry; apply Nat.ltb_ge; lia).
  now rewrite andb_false_r.
Qed.

Lemma std_nth (w : nat) (closes : list R) (i : nat) :
  (i < length closes)%nat ->
  nth i (STD w (map Fin closes)) NaN
  = window_std 1 (map Fin (slice closes (i + 1 - w) (Nat.min (i + 1) w))).
Proof.
  intros Hi. unfold STD, rolling_std.
  rewrite rolling_nth by now rewrite length_map.
  now rewrite window_at_map, window_at_slice.
Qed.

Lemma sma_length (w : nat) (s : Series) : length (SMA w s) = length s.
Proof. unfold SMA, rolling_mean. apply rolling_length. Qed.

Lemma std_length (w : nat) (s : Series) : length (STD w s) = length s.
Proof. unfold STD, rolling_std. apply rolling_length. Qed.

Lemma upper_nth (w : nat) (k : float64) (s : Series) (i : nat) :
  nth i (Upper w k s) NaN
  = fadd (nth i (SMA w s) NaN) (fmul (nth i (STD w s) NaN) k).
Proof.
  unfold Upper, add, mul_scalar.
  rewrite binop_nth; [| reflexivity | now rewrite length_map, sma_length, std_length].
  now rewrite (map_nth_nan (fun x => fmul x k)).
Qed.

Lemma lower_nth (w : nat) (k : float64) (s : Series) (i : nat) :
  nth i (Lower w k s) NaN
  = fsub (nth i (SMA w s) NaN) (fmul (nth i (STD w s) NaN) k).
Proof.
  unfold Lower, sub, mul_scalar.
  rewrite binop_nth; [| reflexivity | now rewrite length_map, sma_length, std_length].
  now rewrite (map_nth_nan (fun x => fmul x k)).
Qed.

(** A defined deviation sits on a row of the frame, under a window of at
    least one row. *)
Lemma std_defined_row (w : nat) (closes : list R) (i : nat) (s : R) :
  nth i (STD w (map Fin closes)) NaN = Fin s ->
  (i < length closes)%nat /\ (1 <= w)%nat.
Proof.
  intros H.
  destruct (Nat.lt_ge_cases i (length closes)) as [Hi | Hi].
  - split; [exact Hi |].
    destruct w as [| w]; [| lia].
    rewrite std_nth in H by exact Hi.
    rewrite Nat.min_0_r in H. discriminate.
  - rewrite nth_overflow in H; [discriminate |].
    now rewrite std_length, length_map.
Qed.

End BandFacts.
Import BandFacts.



(** C5: with at least two closes and a window of at least two rows, the
    rolling deviation is the sample standard deviation over the window the
    moving average uses, and it is missing exactly on the rows whose window
    holds a single close: row 0 is missing, row 1 is defined. *)
Theorem std_needs_two_samples (closes : list R) (w : nat) :
  (2 <= length closes)%nat -> (2 <= w)%nat ->
  let std := STD w (map Fin closes) in
  let sma := SMA w (map Fin closes) in
  length std = length closes
  /\ nth 0 std NaN = NaN
  /\ nth 1 std NaN = Fin (sample_std (slice closes 0 2))
  /\ (forall i, (i < length closes)%nat ->
        (nth i std NaN = NaN <-> Nat.min (i + 1) w = 1%nat))
  /\ (forall i, (1 <= i < length closes)%nat ->
        let win := slice closes (i + 1 - w) (Nat.min (i + 1) w) in
        nth i std NaN = Fin (sample_std win)
        /\ nth i sma NaN = Fin (arithmetic_mean win)).
Proof.
  intros Hn Hw std sma.
  assert (Hrow : forall i, (1 <= i < length closes)%nat ->
            nth i std NaN
            = Fin (sample_std (slice closes (i + 1 - w) (Nat.min (i + 1) w)))).
  { intros i Hi. unfold std. rewrite std_nth by lia.
    apply window_std_fin. rewrite slice_length. lia. }
  assert (H0 : nth 0 std NaN = NaN).
  { unfold std. rewrite std_nth by lia.
    apply window_std_single. rewrite slice_length. lia. }
  split; [unfold std; now rewrite std_length, length_map |].
  split; [exact H0 |].
  split.
  { rewrite Hrow by lia.
    replace (1 + 1 - w)%nat with 0%nat by lia.
    now replace (Nat.min (1 + 1) w) with 2%nat by lia. }
  split.
  - intros i Hi. destruct i as [| i].
    + split; [intros _; lia | intros _; exact H0].
    + rewrite Hrow by lia. split; [discriminate | lia].
  - intros i Hi win. split; [now apply Hrow |].
    unfold sma. apply sma_nth; lia.
Qed.

Lemma std_needs_two_samples_witness :
  (2 <= length scenario_closes)%nat /\ (2 <= 3)%nat
  /\ nth 0 (STD 3 (map Fin scenario_closes)) NaN = NaN
  /\ nth 1 (STD 3 (map Fin scenario_closes)) NaN
     = Fin (sample_std (slice scenario_closes 0 2)).
Proof.
  assert (H1 : (2 <= length scenario_closes)%nat) by (simpl; lia).
  assert (H2 : (2 <= 3)%nat) by lia.
  split; [exact H1 | split; [exact H2 |]].
  destruct (std_needs_two_samples scenario_closes 3 H1 H2) as (_ & Ha & Hb & _).
  split; [exact Ha | exact Hb].
Defined.

(* ================================================================== *)
(** ** The pipeline *)
(* ================================================================== *)

Module PipelineFacts.
Import Dashboard.

Lemma draws_after_ret {A} (a : A) : draws_after (ret a).
Proof. intros page. unfold ret. simpl. now rewrite app_nil_r. Qed.

Lemma draws_after_call {A} (r : Result A) : draws_after (call r).
Proof. intros page. unfold call. simpl. now rewrite app_nil_r. Qed.

Lemma draws_after_show (ev : Event) : draws_after (show ev).
Proof. intros page. reflexivity. Qed.

Lemma draws_after_bind {A B} (m : St A) (k : A -> St B) :
  draws_after m -> (forall a, draws_after (k a)) -> draws_after (bind m k).
Proof.
  intros Hm Hk page. unfold bind.
  rewrite (Hm page). destruct (m []) as [[a | e] drawn]; simpl.
  - rewrite (Hk a (page ++ drawn)%list), (Hk a drawn).
    simpl. now rewrite app_assoc.
  - reflexivity.
Qed.

Lemma draws_after_try (body : St unit) (handler : string -> St unit) :
  draws_after body -> (forall e, draws_after (handler e)) ->
  draws_after (try_except body handler).
Proof.
  intros Hb Hh page. unfold try_except.
  rewrite (Hb page). destruct (body []) as [[[] | e] drawn]; simpl.
  - reflexivity.
  - rewrite (Hh e (page ++ drawn)%list), (Hh e drawn).
    simpl. now rewrite app_assoc.
Qed.

Create HintDb draws.
#[local] Hint Resolve draws_after_ret draws_after_call draws_after_show
  draws_after_bind draws_after_try : draws.

Lemma history_draws_after (ext : Providers) (inp : Inputs) :
  draws_after (history ext inp).
Proof.
  unfold history. apply draws_after_try; [| auto with draws].
  apply draws_after_bind; [auto with draws |]. intros df.
  match goal with |- draws_after (if ?c then _ else _) => destruct c end;
    auto with draws.
Qed.

(** The fundamentals block never lets an exception out. *)
Lemma fundamentals_returns (ext : Providers) (inp : Inputs) (page : list Event) :
  fst (fundamentals ext inp page) = Ok tt.
Proof.
  unfold fundamentals, try_except, bind, call, show.
  destruct (get_basic_info ext (symbol inp)); simpl; [| reflexivity].
  destruct (get_current_price_change ext (symbol inp)); reflexivity.
Qed.

(** A triggered run shows the fundamentals block, then the history block. *)
Lemma run_split (ext : Providers) (inp : Inputs) :
  analyze inp = true ->
  run ext inp = (snd (fundamentals ext inp []) ++ snd (history ext inp []))%list.
Proof.
  intros H. unfold run, main. rewrite H. unfold bind.
  assert (Hf := fundamentals_returns ext inp []).
  destruct (fundamentals ext inp []) as [r drawn]. simpl in Hf. subst r.
  rewrite (history_draws_after ext inp drawn). reflexivity.
Qed.

(** The fundamentals block shows the three metrics or one error line. *)
Lemma fundamentals_page (ext : Providers) (inp : Inputs) :
  forall ev, In ev (snd (fundamentals ext inp [])) ->
  is_chart ev = false
  /\ (is_error ev = true ->
      exists e, ev = ErrorMsg ("Could not retrieve data from Rug: " ++ e)).
Proof.
  unfold fundamentals, try_except, bind, call, show.
  destruct (get_basic_info ext (symbol inp)) as [d | e]; simpl.
  - destruct (get_current_price_change ext (symbol inp)) as [d' | e]; simpl.
    + intros ev [<- | [<- | [<- | []]]]; split; try reflexivity; discriminate.
    + intros ev [<- | []]. split; [reflexivity |]. intros _. now exists e.
  - intros ev [<- | []]. split; [reflexivity |]. intros _. now exists e.
Qed.

Lemma fundamentals_failed (ext : Providers) (inp : Inputs) (e : string) :
  (get_basic_info ext (symbol inp) = Raise e
   \/ (exists d, get_basic_info ext (symbol inp) = Ok d
                 /\ get_current_price_change ext (symbol inp) = Raise e)) ->
  snd (fundamentals ext inp [])
  = [ErrorMsg ("Could not retrieve data from Rug: " ++ e)].
Proof.
  unfold fundamentals, try_except, bind, call, show.
  intros [H | [d [H1 H2]]].
  - now rewrite H.
  - now rewrite H1, H2.
Qed.

(** The history block reads the market-data provider only. *)
Lemma history_same_provider (ext ext' : Providers) (inp : Inputs) :
  yf_download ext' = yf_download ext ->
  history ext' inp = history ext inp.
Proof. intros H. unfold history. now rewrite H. Qed.

End PipelineFacts.
Import PipelineFacts.

(** C7: when the fundamentals fetch raises, the page shows the error line
    and the history block then does its work as after any other outcome of
    the fundamentals fetch: on a download with rows (resampled for 4h) and
    a window of at least 1, the page is the error line followed by the
    chart of that frame with its indicators, and a run whose fundamentals
    fetch has another outcome draws the same chart. *)
Theorem fundamentals_failure_contained
    (ext : Dashboard.Providers) (inp : Dashboard.Inputs) (e : string)
    (tz : Frame.Timezone) (df : Frame.DataFrame) :
  Dashboard.analyze inp = true ->
  (Dashboard.get_basic_info ext (Dashboard.symbol inp) = Dashboard.Raise e
   \/ (exists d,
         Dashboard.get_basic_info ext (Dashboard.symbol inp) = Dashboard.Ok d
         /\ Dashboard.get_current_price_change ext (Dashboard.symbol inp)
            = Dashboard.Raise e)) ->
  Dashboard.yf_download ext (Dashboard.symbol inp) (Dashboard.period inp)
    (Dashboard.yf_interval (Dashboard.interval inp)) = Dashboard.Ok (tz, df) ->
  let frame := if String.eqb (Dashboard.interval inp) "4h"
               then Frame.resample_4h tz df else df in
  df <> [] -> frame <> [] -> (1 <= Dashboard.window inp)%Z ->
  let chart :=
    Dashboard.PlotlyChart
      (Dashboard.make_figure (Dashboard.symbol inp) frame
         (Z.to_nat (Dashboard.window inp)) (Fin (Dashboard.std_dev inp))) in
  Dashboard.run ext inp
  = [Dashboard.ErrorMsg ("Could not retrieve data from Rug: " ++ e); chart]
  /\ (forall ext',
        Dashboard.yf_download ext' = Dashboard.yf_download ext ->
        Dashboard.run ext' inp
        = (snd (Dashboard.fundamentals ext' inp []) ++ [chart])%list).
Proof.
  intros Hrun Hfail Hyf frame Hdf Hframe Hw chart.
  assert (Hh : snd (Dashboard.history ext inp []) = [chart]).
  { unfold Dashboard.history, Dashboard.try_except, Dashboard.bind,
      Dashboard.call, Dashboard.show.
    rewrite Hyf. cbn [fst snd].
    destruct df as [| r0 df0]; [congruence |]. cbn [Frame.empty negb].
    rewrite andb_true_r. fold frame.
    destruct frame as [| f0 frame0] eqn:Ef; [congruence |].
    cbn [Frame.empty negb]. unfold Dashboard.rolling_args.
    replace (Dashboard.window inp <? Z.of_nat 1)%Z with false
      by (symmetry; apply Z.ltb_ge; lia).
    reflexivity. }
  split.
  - rewrite run_split by exact Hrun.
    now rewrite (fundamentals_failed ext inp e Hfail), Hh.
  - intros ext' Hyf'. rewrite run_split by exact Hrun.
    now rewrite (history_same_provider ext ext' inp Hyf'), Hh.
Qed.

Lemma fundamentals_failure_contained_witness :
  Dashboard.run rug_down (sidebar "1d")
  = [Dashboard.ErrorMsg "Could not retrieve data from Rug: connection refused";
     Dashboard.PlotlyChart (Dashboard.make_figure "AAPL" hourly_bars 20 (Fin 2))].
Proof.
  assert (H1 : Dashboard.analyze (sidebar "1d") = true) by reflexivity.
  assert (H2 : Dashboard.get_basic_info rug_down (Dashboard.symbol (sidebar "1d"))
               = Dashboard.Raise "connection refused") by reflexivity.
  assert (H3 : Dashboard.yf_download rug_down (Dashboard.symbol (sidebar "1d"))
                 (Dashboard.period (sidebar "1d"))
                 (Dashboard.yf_interval (Dashboard.interval (sidebar "1d")))
               = Dashboard.Ok (utc, hourly_bars)) by reflexivity.
  assert (H4 : hourly_bars <> []) by discriminate.
  assert (H5 : (1 <= Dashboard.window (sidebar "1d"))%Z) by (simpl; lia).
  destruct (fundamentals_failure_contained rug_down (sidebar "1d")
              "connection refused" utc hourly_bars H1 (or_introl H2) H3 H4 H4 H5)
    as [H _].
  exact H.
Defined.

(** C8: when the market-data provider returns no bars, the history block
    shows the warning and nothing else: no chart is drawn and the error
    line of the history block does not appear. *)
Theorem empty_history_warns
    (ext : Dashboard.Providers) (inp : Dashboard.Inputs) (tz : Frame.Timezone) :
  Dashboard.analyze inp = true ->
  Dashboard.yf_download ext (Dashboard.symbol inp) (Dashboard.period inp)
    (Dashboard.yf_interval (Dashboard.interval inp)) = Dashboard.Ok (tz, []) ->
  Dashboard.history ext inp []
  = (Dashboard.Ok tt, [Dashboard.WarningMsg "No historical price data found."])
  /\ Dashboard.run ext inp
     = (snd (Dashboard.fundamentals ext inp [])
        ++ [Dashboard.WarningMsg "No historical price data found."])%list
  /\ existsb Dashboard.is_chart (Dashboard.run ext inp) = false
  /\ (forall e,
        ~ In (Dashboard.ErrorMsg ("Error calculating technicals: " ++ e))
             (Dashboard.run ext inp)).
Proof.
  intros Hrun Hyf.
  assert (Hh : Dashboard.history ext inp []
               = (Dashboard.Ok tt,
                  [Dashboard.WarningMsg "No historical price data found."])).
  { unfold Dashboard.history, Dashboard.try_except, Dashboard.bind, Dashboard.call.
    rewrite Hyf. cbn [fst snd Frame.empty negb andb].
    rewrite andb_false_r. reflexivity. }
  assert (Hr : Dashboard.run ext inp
               = (snd (Dashboard.fundamentals ext inp [])
                  ++ [Dashboard.WarningMsg "No historical price data found."])%list).
  { rewrite run_split by exact Hrun. now rewrite Hh. }
  split; [exact Hh | split; [exact Hr |]]. rewrite Hr. split.
  - rewrite existsb_app. cbn [existsb Dashboard.is_chart orb].
    rewrite orb_false_r.
    apply not_true_is_false. intros Hex.
    apply existsb_exists in Hex. destruct Hex as [ev [Hin Hc]].
    destruct (fundamentals_page ext inp ev Hin) as [Hno _]. congruence.
  - intros e Hin. apply in_app_or in Hin. destruct Hin as [Hin | [Hin | []]].
    + destruct (fundamentals_page ext inp _ Hin) as [_ Herr].
      destruct (Herr eq_refl) as [e' He']. discriminate He'.
    + discriminate Hin.
Qed.

Lemma empty_history_warns_witness :
  Dashboard.run no_bars (sidebar "4h")
  = [Dashboard.Metric "Company Name" "Apple Inc." None;
     Dashboard.Metric "Current Price" "$190.5" None;
     Dashboard.Metric "Change" "1.2" (Some "0.63%"%string);
     Dashboard.WarningMsg "No historical price data found."].
Proof.
  assert (H1 : Dashboard.analyze (sidebar "4h") = true) by reflexivity.
  assert (H2 : Dashboard.yf_download no_bars (Dashboard.symbol (sidebar "4h"))
                 (Dashboard.period (sidebar "4h"))
                 (Dashboard.yf_interval (Dashboard.interval (sidebar "4h")))
               = Dashboard.Ok (utc, [])) by reflexivity.
  destruct (empty_history_warns no_bars (sidebar "4h") utc H1 H2) as (_ & H & _).
  rewrite H. reflexivity.
Defined.

(* ================================================================== *)
(** ** Volume bar colors *)
(* ================================================================== *)

(** The script colors a bar green exactly when its open is at least its
    close. *)
Lemma volume_color_green_iff (t : Z) (o h l c v : R) :
  Dashboard.volume_color (Frame.mkRow t (Fin o) (Fin h) (Fin l) (Fin c) (Fin v))
  = Dashboard.green <-> c <= o.
Proof.
  unfold Dashboard.volume_color. cbn [Frame.Open Frame.Close fsub fneg fadd fgeb].
  destruct (Rle_dec 0 (o + - c)); split; intros H;
    try reflexivity; try discriminate; lra.
Qed.

(** C9 (the code at a bar with close 11 above open 10): the bar is colored
    red, and so is its entry in the volume trace of the figure. *)
Theorem volume_color_rising_bar :
  Frame.Open rising_bar = Fin 10 /\ Frame.Close rising_bar = Fin 11
  /\ Dashboard.volume_color rising_bar = Dashboard.red
  /\ Dashboard.marker_color
       (Dashboard.make_figure "AAPL" [rising_bar] 20 (Fin 2))
     = [Dashboard.red].
Proof.
  assert (H : Dashboard.volume_color rising_bar = Dashboard.red).
  { destruct (Dashboard.volume_color rising_bar) eqn:E; [| reflexivity].
    apply volume_color_green_iff in E. lra. }
  repeat split; try reflexivity; try exact H.
  cbn [Dashboard.make_figure Dashboard.marker_color Dashboard.colors map].
  now rewrite H.
Qed.

(* ================================================================== *)
(** ** Resampling *)
(* ================================================================== *)

Module FrameFacts.
Import Frame.

Lemma finite_series (s : Series) :
  forallb finite s = true -> exists l, s = map Fin l.
Proof.
  induction s as [| x s IH]; intros H.
  - now exists [].
  - simpl in H. apply andb_true_iff in H. destruct H as [Hx Hs].
    destruct (IH Hs) as [l ->]. destruct x as [r | | |]; try discriminate.
    now exists (r :: l).
Qed.

Lemma observations_finite (s : Series) :
  forallb finite s = true -> observations s = s.
Proof. intros H. destruct (finite_series s H) as [l ->]. apply observations_fin. Qed.

Lemma finite_column (col : Row -> float64) (g : DataFrame) :
  (forall r, finite_row r = true -> finite (col r) = true) ->
  forallb finite_row g = true -> forallb finite (map col g) = true.
Proof.
  intros Hcol H. rewrite forallb_forall in *. intros x Hx.
  apply in_map_iff in Hx. destruct Hx as [r [<- Hr]]. apply Hcol. now apply H.
Qed.

Lemma finite_row_fields (r : Row) :
  finite_row r = true ->
  finite (Open r) = true /\ finite (High r) = true /\ finite (Low r) = true
  /\ finite (Close r) = true /\ finite (Volume r) = true.
Proof.
  unfold finite_row. intros H.
  repeat (apply andb_true_iff in H; destruct H as [H ?]). tauto.
Qed.

Lemma in_bucket_finite (o k : Z) (df : DataFrame) :
  forallb finite_row df = true -> forallb finite_row (in_bucket o k df) = true.
Proof.
  intros H. rewrite forallb_forall in *. intros r Hr.
  apply filter_In in Hr. now apply H.
Qed.

Lemma hd_map {A B : Type} (f : A -> B) (d : B) (d' : A) (l : list A) :
  l <> [] -> hd d (map f l) = f (hd d' l).
Proof. destruct l; [congruence | reflexivity]. Qed.

Lemma last_map {A B : Type} (f : A -> B) (d : B) (d' : A) (l : list A) :
  l <> [] -> last (map f l) d = f (last l d').
Proof.
  induction l as [| x l IH]; [congruence |]. intros _.
  destruct l as [| y l]; [reflexivity |].
  change (last (map f (y :: l)) d = f (last (y :: l) d')).
  apply IH. discriminate.
Qed.

Lemma last_In {A : Type} (d : A) (l : list A) : l <> [] -> In (last l d) l.
Proof.
  induction l as [| x l IH]; [congruence |]. intros _.
  destruct l as [| y l]; [now left |].
  right. apply IH. discriminate.
Qed.

Lemma fmax_fin (x y : R) : fmax (Fin x) (Fin y) = Fin (Rmax x y).
Proof.
  unfold fmax. destruct (Rlt_dec x y) as [H | H].
  - rewrite fltb_fin_true by exact H. f_equal. rewrite Rmax_right; lra.
  - rewrite fltb_fin_false by lra. f_equal. rewrite Rmax_left; lra.
Qed.

Lemma fmin_fin (x y : R) : fmin (Fin x) (Fin y) = Fin (Rmin x y).
Proof.
  unfold fmin. destruct (Rlt_dec y x) as [H | H].
  - rewrite fltb_fin_true by exact H. f_equal. rewrite Rmin_right; lra.
  - rewrite fltb_fin_false by lra. f_equal. rewrite Rmin_left; lra.
Qed.

Lemma fold_fmax_fin (t : list R) (x : R) :
  fold_left fmax (map Fin t) (Fin x) = Fin (fold_left Rmax t x).
Proof.
  revert x. induction t as [| y t IH]; intros x; simpl; [reflexivity |].
  now rewrite fmax_fin, IH.
Qed.

Lemma fold_fmin_fin (t : list R) (x : R) :
  fold_left fmin (map Fin t) (Fin x) = Fin (fold_left Rmin t x).
Proof.
  revert x. induction t as [| y t IH]; intros x; simpl; [reflexivity |].
  now rewrite fmin_fin, IH.
Qed.

Lemma fold_Rmax_spec (t : list R) (x : R) :
  In (fold_left Rmax t x) (x :: t)
  /\ forall y, In y (x :: t) -> y <= fold_left Rmax t x.
Proof.
  revert x. induction t as [| z t IH]; intros x; simpl.
  - split; [now left | intros y [<- | []]; lra].
  - destruct (IH (Rmax x z)) as [Hin Hub]. split.
    + destruct Hin as [Hin | Hin]; [| now right; right].
      rewrite <- Hin. unfold Rmax. destruct (Rle_dec x z); [right | ]; now left.
    + intros y Hy.
      assert (Hm : Rmax x z <= fold_left Rmax t (Rmax x z)) by (apply Hub; now left).
      destruct Hy as [<- | [<- | Hy]].
      * pose proof (Rmax_l x z). lra.
      * pose proof (Rmax_r x z). lra.
      * apply Hub. now right.
Qed.

Lemma fold_Rmin_spec (t : list R) (x : R) :
  In (fold_left Rmin t x) (x :: t)
  /\ forall y, In y (x :: t) -> fold_left Rmin t x <= y.
Proof.
  revert x. induction t as [| z t IH]; intros x; simpl.
  - split; [now left | intros y [<- | []]; lra].
  - destruct (IH (Rmin x z)) as [Hin Hlb]. split.
    + destruct Hin as [Hin | Hin]; [| now right; right].
      rewrite <- Hin. unfold Rmin. destruct (Rle_dec x z); [| right]; now left.
    + intros y Hy.
      assert (Hm : fold_left Rmin t (Rmin x z) <= Rmin x z) by (apply Hlb; now left).
      destruct Hy as [<- | [<- | Hy]].
      * pose proof (Rmin_l x z). lra.
      * pose proof (Rmin_r x z). lra.
      * apply Hlb. now right.
Qed.

(** [max] over a column without missing values: one of its values, and none
    is greater. *)
Lemma agg_max_spec (s : Series) :
  s <> [] -> forallb finite s = true ->
  finite (agg_max s) = true
  /\ In (agg_max s) s
  /\ forall y, In y s -> fltb (agg_max s) y = false.
Proof.
  intros Hne Hfin. unfold agg_max. rewrite observations_finite by exact Hfin.
  destruct (finite_series s Hfin) as [l ->].
  destruct l as [| x t]; [now contradiction Hne |].
  cbn [map]. rewrite fold_fmax_fin.
  destruct (fold_Rmax_spec t x) as [Hin Hub].
  split; [reflexivity |]. split.
  - change (In (Fin (fold_left Rmax t x)) (map Fin (x :: t))). now apply in_map.
  - intros y Hy. change (In y (map Fin (x :: t))) in Hy.
    apply in_map_iff in Hy. destruct Hy as [v [<- Hv]].
    apply fltb_fin_false. now apply Hub.
Qed.

Lemma agg_min_spec (s : Series) :
  s <> [] -> forallb finite s = true ->
  finite (agg_min s) = true
  /\ In (agg_min s) s
  /\ forall y, In y s -> fltb y (agg_min s) = false.
Proof.
  intros Hne Hfin. unfold agg_min. rewrite observations_finite by exact Hfin.
  destruct (finite_series s Hfin) as [l ->].
  destruct l as [| x t]; [now contradiction Hne |].
  cbn [map]. rewrite fold_fmin_fin.
  destruct (fold_Rmin_spec t x) as [Hin Hlb].
  split; [reflexivity |]. split.
  - change (In (Fin (fold_left Rmin t x)) (map Fin (x :: t))). now apply in_map.
  - intros y Hy. change (In y (map Fin (x :: t))) in Hy.
    apply in_map_iff in Hy. destruct Hy as [v [<- Hv]].
    apply fltb_fin_false. now apply Hlb.
Qed.

Lemma agg_sum_finite (s : Series) :
  forallb finite s = true -> agg_sum s = fsum s /\ finite (fsum s) = true.
Proof.
  intros H. unfold agg_sum. rewrite observations_finite by exact H.
  split; [reflexivity |].
  destruct (finite_series s H) as [l ->]. now rewrite fsum_fin.
Qed.

Lemma finite_not_nan (a : float64) : finite a = true -> is_nan a = false.
Proof. destruct a; simpl; congruence. Qed.

Lemma bucket_label (o k : Z) : bucket o (o + k * four_hours) = k.
Proof.
  unfold bucket, four_hours.
  replace (o + k * 14400 - o)%Z with (k * 14400)%Z by lia.
  apply Z.div_mul. lia.
Qed.

Lemma bucket_bounds (o t k : Z) :
  bucket o t = k
  <-> (o + k * four_hours <= t < o + k * four_hours + four_hours)%Z.
Proof. unfold bucket, four_hours. split; intros H; Z.div_mod_to_equations; lia. Qed.

Lemma bucket_mono (o a b : Z) : (a <= b)%Z -> (bucket o a <= bucket o b)%Z.
Proof. intros H. unfold bucket, four_hours. apply Z.div_le_mono; lia. Qed.

End FrameFacts.
Import FrameFacts.

Module SortFacts.
Import Frame.

Lemma insert_row_perm (r : Row) (df : DataFrame) :
  Permutation (insert_row r df) (r :: df).
Proof.
  induction df as [| x df IH]; simpl; [reflexivity |].
  destruct (ts r <=? ts x)%Z; [reflexivity |].
  rewrite IH. apply perm_swap.
Qed.

Lemma sort_index_perm (df : DataFrame) : Permutation (sort_index df) df.
Proof.
  induction df as [| r df IH]; simpl; [reflexivity |].
  rewrite insert_row_perm. now constructor.
Qed.

Lemma sort_index_In (df : DataFrame) (r : Row) :
  In r (sort_index df) <-> In r df.
Proof.
  split; apply Permutation_in;
    [apply sort_index_perm | symmetry; apply sort_index_perm].
Qed.

Lemma sort_index_length (df : DataFrame) : length (sort_index df) = length df.
Proof. apply Permutation_length, sort_index_perm. Qed.

Lemma sort_index_finite (df : DataFrame) :
  forallb finite_row df = true -> forallb finite_row (sort_index df) = true.
Proof.
  intros H. rewrite forallb_forall in *. intros r Hr.
  apply H. now apply sort_index_In.
Qed.

Lemma insert_row_sorted (r : Row) (df : DataFrame) :
  nondecreasing df -> nondecreasing (insert_row r df).
Proof.
  intros H. induction H as [| x df Hs IH Hall]; simpl.
  - constructor; constructor.
  - destruct (ts r <=? ts x)%Z eqn:E.
    + apply Z.leb_le in E. constructor; [now constructor |].
      constructor; [exact E |].
      rewrite Forall_forall in *. intros y Hy. specialize (Hall y Hy). lia.
    + apply Z.leb_gt in E. constructor; [exact IH |].
      rewrite Forall_forall in *. intros y Hy.
      apply (Permutation_in _ (insert_row_perm r df)) in Hy.
      destruct Hy as [<- | Hy]; [lia | now apply Hall].
Qed.

Lemma sort_index_sorted (df : DataFrame) : nondecreasing (sort_index df).
Proof.
  induction df as [| r df IH]; simpl; [constructor |].
  now apply insert_row_sorted.
Qed.

(** A frame already in order is left as it is. *)
Lemma sort_index_id (df : DataFrame) : nondecreasing df -> sort_index df = df.
Proof.
  intros H. induction H as [| x df Hs IH Hall]; simpl; [reflexivity |].
  rewrite IH. destruct df as [| y df]; [reflexivity |].
  simpl. rewrite Forall_forall in Hall.
  assert (Hxy : (ts x <= ts y)%Z) by (apply Hall; now left).
  apply Z.leb_le in Hxy. now rewrite Hxy.
Qed.

Lemma ascending_nondecreasing (df : DataFrame) :
  ascending df -> nondecreasing df.
Proof.
  intros H. induction H as [| x df Hs IH Hall]; constructor; [exact IH |].
  rewrite Forall_forall in *. intros y Hy. specialize (Hall y Hy). lia.
Qed.

Lemma sort_index_ascending (df : DataFrame) : ascending df -> sort_index df = df.
Proof. intros H. now apply sort_index_id, ascending_nondecreasing. Qed.

End SortFacts.
Import SortFacts.

Module ResampleFacts.
Import Frame.

Section Anchored.
Variable o : Z.

(** The row of a bin that holds bars. *)
Lemma agg_bucket_group (df : DataFrame) (k : Z) :
  forallb finite_row df = true -> in_bucket o k df <> [] ->
  let g := in_bucket o k df in
  let row := agg_bucket o df k in
  has_nan row = false
  /\ Open row = Open (hd row g)
  /\ (In (High row) (map High g)
      /\ forall r, In r g -> fltb (High row) (High r) = false)
  /\ (In (Low row) (map Low g)
      /\ forall r, In r g -> fltb (Low r) (Low row) = false)
  /\ Close row = Close (last g row)
  /\ Volume row = fsum (map Volume g).
Proof.
  intros Hfin Hne g row.
  assert (Hg : forallb finite_row g = true) by now apply in_bucket_finite.
  assert (Hmap : forall col : Row -> float64, map col g <> []).
  { intros col E. apply map_eq_nil in E. contradiction. }
  assert (HO : forallb finite (map Open g) = true)
    by (apply finite_column; [intros r Hr; apply finite_row_fields in Hr; tauto | exact Hg]).
  assert (HH : forallb finite (map High g) = true)
    by (apply finite_column; [intros r Hr; apply finite_row_fields in Hr; tauto | exact Hg]).
  assert (HL : forallb finite (map Low g) = true)
    by (apply finite_column; [intros r Hr; apply finite_row_fields in Hr; tauto | exact Hg]).
  assert (HC : forallb finite (map Close g) = true)
    by (apply finite_column; [intros r Hr; apply finite_row_fields in Hr; tauto | exact Hg]).
  assert (HV : forallb finite (map Volume g) = true)
    by (apply finite_column; [intros r Hr; apply finite_row_fields in Hr; tauto | exact Hg]).
  assert (EO : Open row = Open (hd row g)).
  { unfold row at 1, agg_bucket. cbn [Open]. fold g. unfold agg_first.
    rewrite observations_finite by exact HO. now apply hd_map. }
  assert (EC : Close row = Close (last g row)).
  { unfold row at 1, agg_bucket. cbn [Close]. fold g. unfold agg_last.
    rewrite observations_finite by exact HC. now apply last_map. }
  destruct (agg_max_spec (map High g) (Hmap High) HH) as (FH & IH & UH).
  destruct (agg_min_spec (map Low g) (Hmap Low) HL) as (FL & IL & UL).
  destruct (agg_sum_finite (map Volume g) HV) as (EV & FV).
  assert (FO : finite (Open row) = true).
  { rewrite EO. rewrite forallb_forall in HO. apply HO. apply in_map.
    destruct g; [contradiction | now left]. }
  assert (FC : finite (Close row) = true).
  { rewrite EC. rewrite forallb_forall in HC. apply HC. apply in_map.
    now apply last_In. }
  split.
  { unfold has_nan. rewrite (finite_not_nan _ FO), (finite_not_nan _ FC).
    unfold row, agg_bucket. cbn [High Low Volume]. fold g.
    rewrite (finite_not_nan _ FH), (finite_not_nan _ FL), EV.
    now rewrite (finite_not_nan _ FV). }
  split; [exact EO |].
  split.
  { unfold row, agg_bucket. cbn [High]. fold g. split; [exact IH |].
    intros r Hr. apply UH. now apply in_map. }
  split.
  { unfold row, agg_bucket. cbn [Low]. fold g. split; [exact IL |].
    intros r Hr. apply UL. now apply in_map. }
  split; [exact EC |].
  unfold row, agg_bucket. cbn [Volume]. fold g. exact EV.
Qed.

(** The row of a bin without bars is dropped. *)
Lemma agg_bucket_empty (df : DataFrame) (k : Z) :
  in_bucket o k df = [] -> has_nan (agg_bucket o df k) = true.
Proof. intros H. unfold has_nan, agg_bucket. rewrite H. reflexivity. Qed.

Lemma resample_from_eq (df : DataFrame) :
  resample_from o df
  = map (agg_bucket o df)
        (filter (fun k => negb (has_nan (agg_bucket o df k))) (bucket_range o df)).
Proof. unfold resample_from, dropna, resample_agg. apply filter_map_swap. Qed.

Lemma in_resample_from (df : DataFrame) (row : Row) :
  forallb finite_row df = true ->
  (In row (resample_from o df)
   <-> exists k, In k (bucket_range o df) /\ in_bucket o k df <> []
                 /\ row = agg_bucket o df k).
Proof.
  intros Hfin. rewrite resample_from_eq, in_map_iff. split.
  - intros [k [<- Hk]]. apply filter_In in Hk. destruct Hk as [Hk Hnan].
    exists k. split; [exact Hk |]. split; [| reflexivity].
    intros E. rewrite (agg_bucket_empty df k E) in Hnan. discriminate.
  - intros [k (Hk & Hne & ->)]. exists k. split; [reflexivity |].
    apply filter_In. split; [exact Hk |].
    destruct (agg_bucket_group df k Hfin Hne) as [Hnan _]. now rewrite Hnan.
Qed.

Lemma in_bucket_range (df : DataFrame) (r0 : Row) (k : Z) :
  In k (bucket_range o (r0 :: df))
  <-> (bucket o (ts r0) <= k <= bucket o (ts (last (r0 :: df) r0)))%Z.
Proof.
  unfold bucket_range. rewrite in_map_iff. split.
  - intros [j [<- Hj]]. apply in_seq in Hj. lia.
  - intros H. exists (Z.to_nat (k - bucket o (ts r0))). split; [lia |].
    apply in_seq. lia.
Qed.

Lemma bucket_range_NoDup (df : DataFrame) : NoDup (bucket_range o df).
Proof.
  destruct df as [| r0 df]; [constructor |].
  unfold bucket_range. apply Injective_map_NoDup_in; [| apply seq_NoDup].
  intros x y _ _ H. lia.
Qed.

Lemma sorted_head (r0 : Row) (df : DataFrame) (r : Row) :
  nondecreasing (r0 :: df) -> In r (r0 :: df) -> (ts r0 <= ts r)%Z.
Proof.
  intros H [<- | Hr]; [lia |].
  apply StronglySorted_inv in H. destruct H as [_ H].
  rewrite Forall_forall in H. now apply H.
Qed.

Lemma sorted_last (df : DataFrame) (d r : Row) :
  nondecreasing df -> In r df -> (ts r <= ts (last df d))%Z.
Proof.
  induction df as [| a df IH]; intros H Hr; [contradiction |].
  pose proof (StronglySorted_inv H) as [Hs Hall].
  destruct df as [| b df].
  - destruct Hr as [<- | []]. simpl. lia.
  - change (last (a :: b :: df) d) with (last (b :: df) d).
    destruct Hr as [<- | Hr].
    + rewrite Forall_forall in Hall. apply Hall.
      apply last_In. discriminate.
    + now apply IH.
Qed.

(** Every bar of a sorted frame falls in a bin of the range. *)
Lemma bucket_in_range (df : DataFrame) (r : Row) :
  nondecreasing df -> In r df -> In (bucket o (ts r)) (bucket_range o df).
Proof.
  intros Hs Hr. destruct df as [| r0 df]; [contradiction |].
  apply in_bucket_range. split; apply bucket_mono.
  - now apply (sorted_head r0 df).
  - now apply sorted_last.
Qed.

Lemma resample_from_labels (df : DataFrame) :
  NoDup (map ts (resample_from o df)).
Proof.
  rewrite resample_from_eq, map_map. cbn [agg_bucket ts].
  apply Injective_map_NoDup_in.
  - intros x y _ _ H. unfold four_hours in H. lia.
  - apply NoDup_filter, bucket_range_NoDup.
Qed.

End Anchored.

(** On a frame in ascending order the resampling is the binning of the
    frame itself, anchored at midnight of its first row's day. *)
Lemma resample_4h_ascending_eq (tz : Timezone) (df : DataFrame) :
  ascending df -> resample_4h tz df = resample_from (start_day tz df) df.
Proof. intros H. unfold resample_4h. now rewrite sort_index_ascending. Qed.

End ResampleFacts.
Import ResampleFacts.

(** C6: for the 4h interval the script downloads 1h bars and resamples
    them into bins of four hours, anchored at midnight of the first bar's
    day.  Every row of the result stands for a bin that holds at least one
    bar: the bars whose timestamp lies in the four hours from the row's
    label.  Its open is the first such bar's open, its high the greatest
    high, its low the least low, its close the last bar's close and its
    volume the sum of the volumes.  Every bar lies in the bin of one row,
    no two rows share a label, and bins without bars give no row. *)
Theorem resample_4h_buckets (tz : Frame.Timezone) (df : Frame.DataFrame) :
  forallb Frame.finite_row df = true -> Frame.ascending df ->
  let o := Frame.start_day tz df in
  Dashboard.yf_interval "4h" = "1h"%string
  /\ (forall ext inp,
        Dashboard.interval inp = "4h"%string ->
        Dashboard.yf_download ext (Dashboard.symbol inp) (Dashboard.period inp) "1h"
        = Dashboard.Ok (tz, df) ->
        df <> [] -> (1 <= Dashboard.window inp)%Z ->
        Dashboard.history ext inp []
        = (Dashboard.Ok tt,
           [Dashboard.PlotlyChart
              (Dashboard.make_figure (Dashboard.symbol inp) (Frame.resample_4h tz df)
                 (Z.to_nat (Dashboard.window inp)) (Fin (Dashboard.std_dev inp)))]))
  /\ (forall row, In row (Frame.resample_4h tz df) ->
        let g := Frame.in_bucket o (Frame.bucket o (Frame.ts row)) df in
        g <> []
        /\ Frame.ts row
           = (o + Frame.bucket o (Frame.ts row) * Frame.four_hours)%Z
        /\ (forall r, In r g <->
              In r df
              /\ (Frame.ts row <= Frame.ts r < Frame.ts row + Frame.four_hours)%Z)
        /\ Frame.Open row = Frame.Open (hd row g)
        /\ (In (Frame.High row) (map Frame.High g)
            /\ forall r, In r g -> fltb (Frame.High row) (Frame.High r) = false)
        /\ (In (Frame.Low row) (map Frame.Low g)
            /\ forall r, In r g -> fltb (Frame.Low r) (Frame.Low row) = false)
        /\ Frame.Close row = Frame.Close (last g row)
        /\ Frame.Volume row = fsum (map Frame.Volume g))
  /\ (forall r, In r df ->
        exists row,
          In row (Frame.resample_4h tz df)
          /\ Frame.ts row
             = (o + Frame.bucket o (Frame.ts r) * Frame.four_hours)%Z)
  /\ NoDup (map Frame.ts (Frame.resample_4h tz df)).
Proof.
  intros Hfin Hasc o.
  rewrite (resample_4h_ascending_eq tz df Hasc). fold o.
  assert (Hsorted : Frame.nondecreasing df) by now apply ascending_nondecreasing.
  assert (Hcover : forall r, In r df ->
            exists row,
              In row (Frame.resample_from o df)
              /\ Frame.ts row
                 = (o + Frame.bucket o (Frame.ts r) * Frame.four_hours)%Z).
  { intros r Hr. exists (Frame.agg_bucket o df (Frame.bucket o (Frame.ts r))).
    split; [| reflexivity].
    apply in_resample_from; [exact Hfin |].
    exists (Frame.bucket o (Frame.ts r)).
    split; [now apply bucket_in_range |]. split; [| reflexivity].
    intros E.
    assert (Hin : In r (Frame.in_bucket o (Frame.bucket o (Frame.ts r)) df)).
    { apply filter_In. split; [exact Hr | apply Z.eqb_refl]. }
    rewrite E in Hin. contradiction. }
  split; [reflexivity |].
  split.
  { intros ext inp Hint Hyf Hne Hw.
    unfold Dashboard.history, Dashboard.try_except, Dashboard.bind, Dashboard.call.
    rewrite Hint. change (Dashboard.yf_interval "4h") with "1h"%string.
    rewrite Hyf. cbn [fst snd String.eqb Ascii.eqb Bool.eqb andb].
    destruct df as [| r0 df0]; [congruence |]. cbn [Frame.empty negb].
    rewrite (resample_4h_ascending_eq tz (r0 :: df0) Hasc). fold o.
    destruct (Hcover r0 (or_introl eq_refl)) as [row [Hrow _]].
    destruct (Frame.resample_from o (r0 :: df0)) as [| row0 rest] eqn:E;
      [contradiction |].
    cbn [Frame.empty negb]. unfold Dashboard.rolling_args.
    replace (Dashboard.window inp <? Z.of_nat 1)%Z with false
      by (symmetry; apply Z.ltb_ge; lia).
    reflexivity. }
  split.
  { intros row Hrow g.
    apply in_resample_from in Hrow; [| exact Hfin].
    destruct Hrow as [k (Hk & Hne & ->)].
    assert (Hts : Frame.ts (Frame.agg_bucket o df k) = (o + k * Frame.four_hours)%Z)
      by reflexivity.
    assert (Hg : g = Frame.in_bucket o k df).
    { unfold g. now rewrite Hts, bucket_label. }
    rewrite Hg. split; [exact Hne |]. split.
    { now rewrite Hts, bucket_label. }
    split.
    { intros r. unfold Frame.in_bucket. rewrite filter_In, Z.eqb_eq, Hts.
      now rewrite bucket_bounds. }
    destruct (agg_bucket_group o df k Hfin Hne) as (_ & H). exact H. }
  split; [exact Hcover | apply resample_from_labels].
Qed.

(** One session of hourly bars and the next day's first bar, in UTC: the
    bin labelled 08:00 holds the bars of 09:30, 10:30 and 11:30. *)
Lemma resample_4h_buckets_witness :
  forallb Frame.finite_row hourly_bars = true /\ Frame.ascending hourly_bars
  /\ exists row,
       In row (Frame.resample_4h utc hourly_bars)
       /\ Frame.ts row = 28800%Z
       /\ Frame.Volume row = fsum (map Frame.Volume (firstn 3 hourly_bars))
       /\ forall r, In r (firstn 3 hourly_bars) ->
                    fltb (Frame.High row) (Frame.High r) = false.
Proof.
  assert (H1 : forallb Frame.finite_row hourly_bars = true) by reflexivity.
  assert (H2 : Frame.ascending hourly_bars).
  { unfold Frame.ascending, hourly_bars.
    repeat (constructor; [| repeat (constructor; [simpl; lia |]); constructor]).
    constructor. }
  split; [exact H1 | split; [exact H2 |]].
  destruct (resample_4h_buckets utc hourly_bars H1 H2) as (_ & _ & Hrows & Hcover & _).
  destruct (Hcover (hd rising_bar hourly_bars) (or_introl eq_refl))
    as [row [Hin Hts]].
  exists row. split; [exact Hin |]. split; [exact Hts |].
  destruct (Hrows row Hin) as (_ & _ & _ & _ & [_ Hhigh] & _ & _ & Hvol).
  rewrite Hts in Hhigh, Hvol. split; [exact Hvol | exact Hhigh].
Defined.

(* ================================================================== *)
(** ** More on the pipeline *)
(* ================================================================== *)

Module RunFacts.
Import Dashboard.

(** The history block never lets an exception out either. *)
Lemma history_returns (ext : Providers) (inp : Inputs) (page : list Event) :
  fst (history ext inp page) = Ok tt.
Proof.
  unfold history, try_except, bind, call, show.
  destruct (yf_download ext (symbol inp) (period inp) (yf_interval (interval inp)))
    as [df | e]; simpl; [| reflexivity].
  match goal with
  | |- context [if negb (Frame.empty ?d) then _ else _] =>
      destruct (negb (Frame.empty d))
  end; simpl; [| reflexivity].
  destruct (rolling_args (window inp) 1); reflexivity.
Qed.

Lemma yf_interval_not_4h (i : string) : yf_interval i <> "4h"%string.
Proof.
  unfold yf_interval. destruct (String.eqb i "4h") eqn:E.
  - discriminate.
  - now apply String.eqb_neq.
Qed.

Lemma get_missing (d : Dict) (key default : string) :
  (forall v, ~ In (key, v) d) -> get d key default = default.
Proof.
  induction d as [| [k v] d IH]; intros H; simpl; [reflexivity |].
  destruct (String.eqb k key) eqn:E.
  - apply String.eqb_eq in E. subst k. exfalso. apply (H v). now left.
  - apply IH. intros v' Hv'. apply (H v'). now right.
Qed.

End RunFacts.
Import RunFacts.

(** X1: no exception leaves the script: both blocks catch what their
    provider or the indicator code raises, so a run always returns, and a
    run without the button pressed leaves the page as it is. *)
Theorem main_never_raises
    (ext : Dashboard.Providers) (inp : Dashboard.Inputs)
    (page : list Dashboard.Event) :
  fst (Dashboard.main ext inp page) = Dashboard.Ok tt
  /\ (Dashboard.analyze inp = false -> snd (Dashboard.main ext inp page) = page).
Proof.
  unfold Dashboard.main. destruct (Dashboard.analyze inp).
  - split; [| discriminate]. unfold Dashboard.bind.
    pose proof (fundamentals_returns ext inp page) as Hf.
    destruct (Dashboard.fundamentals ext inp page) as [r drawn].
    simpl in Hf. subst r. apply history_returns.
  - split; [reflexivity | intros _; reflexivity].
Qed.

(** X2: the history block adds exactly one element to the page: the chart,
    the no-data warning or its own error line. *)
Theorem history_shows_one
    (ext : Dashboard.Providers) (inp : Dashboard.Inputs) :
  exists ev,
    snd (Dashboard.history ext inp []) = [ev]
    /\ (Dashboard.is_chart ev = true
        \/ ev = Dashboard.WarningMsg "No historical price data found."
        \/ exists e, ev = Dashboard.ErrorMsg ("Error calculating technicals: " ++ e)).
Proof.
  unfold Dashboard.history, Dashboard.try_except, Dashboard.bind,
    Dashboard.call, Dashboard.show.
  destruct (Dashboard.yf_download ext (Dashboard.symbol inp) (Dashboard.period inp)
              (Dashboard.yf_interval (Dashboard.interval inp))) as [df | e]; simpl.
  - match goal with
    | |- context [if negb (Frame.empty ?d) then _ else _] =>
        destruct (negb (Frame.empty d))
    end; simpl.
    + destruct (Dashboard.rolling_args (Dashboard.window inp) 1) as [w | e]; simpl.
      * eexists. split; [reflexivity |]. now left.
      * eexists. split; [reflexivity |]. right. right. now exists e.
    + eexists. split; [reflexivity |]. right. now left.
  - eexists. split; [reflexivity |]. right. right. now exists e.
Qed.

(** X3: when the market-data download raises, the history block shows its
    error line with the cause, no chart is drawn, and the fundamentals shown
    before stay on the page. *)
Theorem history_failure_reported
    (ext : Dashboard.Providers) (inp : Dashboard.Inputs) (e : string) :
  Dashboard.analyze inp = true ->
  Dashboard.yf_download ext (Dashboard.symbol inp) (Dashboard.period inp)
    (Dashboard.yf_interval (Dashboard.interval inp)) = Dashboard.Raise e ->
  Dashboard.run ext inp
  = (snd (Dashboard.fundamentals ext inp [])
     ++ [Dashboard.ErrorMsg ("Error calculating technicals: " ++ e)])%list
  /\ existsb Dashboard.is_chart (Dashboard.run ext inp) = false.
Proof.
  intros Hrun Hyf.
  assert (Hr : Dashboard.run ext inp
               = (snd (Dashboard.fundamentals ext inp [])
                  ++ [Dashboard.ErrorMsg ("Error calculating technicals: " ++ e)])%list).
  { rewrite run_split by exact Hrun. f_equal.
    unfold Dashboard.history, Dashboard.try_except, Dashboard.bind, Dashboard.call.
    now rewrite Hyf. }
  split; [exact Hr |]. rewrite Hr, existsb_app.
  cbn [existsb Dashboard.is_chart orb]. rewrite orb_false_r.
  apply not_true_is_false. intros Hex.
  apply existsb_exists in Hex. destruct Hex as [ev [Hin Hc]].
  destruct (fundamentals_page ext inp ev Hin) as [Hno _]. congruence.
Qed.

Lemma history_failure_reported_witness :
  Dashboard.run yf_down (sidebar "1d")
  = [Dashboard.Metric "Company Name" "Apple Inc." None;
     Dashboard.Metric "Current Price" "$190.5" None;
     Dashboard.Metric "Change" "1.2" (Some "0.63%"%string);
     Dashboard.ErrorMsg "Error calculating technicals: no connection"].
Proof.
  assert (H1 : Dashboard.analyze (sidebar "1d") = true) by reflexivity.
  assert (H2 : Dashboard.yf_download yf_down (Dashboard.symbol (sidebar "1d"))
                 (Dashboard.period (sidebar "1d"))
                 (Dashboard.yf_interval (Dashboard.interval (sidebar "1d")))
               = Dashboard.Raise "no connection") by reflexivity.
  destruct (history_failure_reported yf_down (sidebar "1d") "no connection" H1 H2)
    as [H _].
  rewrite H. reflexivity.
Defined.

(** X4: a Bollinger window of 0 or less on a frame with rows is refused by
    the rolling computation: the history block shows its error line and
    draws no chart. *)
Theorem bad_window_reported
    (ext : Dashboard.Providers) (inp : Dashboard.Inputs)
    (tz : Frame.Timezone) (df : Frame.DataFrame) :
  Dashboard.interval inp <> "4h"%string ->
  Dashboard.yf_download ext (Dashboard.symbol inp) (Dashboard.period inp)
    (Dashboard.interval inp) = Dashboard.Ok (tz, df) ->
  df <> [] ->
  (Dashboard.window inp <= 0)%Z ->
  exists e,
    Dashboard.history ext inp []
    = (Dashboard.Ok tt,
       [Dashboard.ErrorMsg ("Error calculating technicals: " ++ e)]).
Proof.
  intros Hint Hyf Hne Hw.
  unfold Dashboard.history, Dashboard.try_except, Dashboard.bind,
    Dashboard.call, Dashboard.show, Dashboard.yf_interval.
  apply String.eqb_neq in Hint. rewrite Hint, Hyf. cbn [fst snd andb].
  destruct df as [| r0 df0]; [congruence |]. cbn [Frame.empty negb].
  unfold Dashboard.rolling_args.
  replace (Dashboard.window inp <? Z.of_nat 1)%Z with true
    by (symmetry; apply Z.ltb_lt; lia).
  eexists. reflexivity.
Qed.

Lemma bad_window_reported_witness :
  exists e,
    Dashboard.history all_up (sidebar_with "1d" 0) []
    = (Dashboard.Ok tt,
       [Dashboard.ErrorMsg ("Error calculating technicals: " ++ e)]).
Proof.
  apply (bad_window_reported all_up (sidebar_with "1d" 0) utc hourly_bars).
  - discriminate.
  - reflexivity.
  - discriminate.
  - simpl. lia.
Defined.

(** X5: the market-data provider is never asked for 4h bars: two providers
    that answer alike for every other interval give the same history
    block, whatever interval the sidebar holds. *)
Theorem never_downloads_4h
    (ext ext' : Dashboard.Providers) (inp : Dashboard.Inputs) :
  (forall s p i, i <> "4h"%string ->
     Dashboard.yf_download ext' s p i = Dashboard.yf_download ext s p i) ->
  Dashboard.history ext' inp = Dashboard.history ext inp.
Proof.
  intros H. unfold Dashboard.history.
  now rewrite (H _ _ _ (yf_interval_not_4h (Dashboard.interval inp))).
Qed.

Lemma never_downloads_4h_witness :
  Dashboard.history no_native_4h (sidebar "4h")
  = Dashboard.history bare_quotes (sidebar "4h").
Proof.
  apply never_downloads_4h. intros s p i Hi. simpl.
  apply String.eqb_neq in Hi. now rewrite Hi.
Defined.

(** X6: for every interval other than 4h the frame is charted as it was
    downloaded, with no resampling, once it has rows and the window is at
    least 1. *)
Theorem other_intervals_not_resampled
    (ext : Dashboard.Providers) (inp : Dashboard.Inputs)
    (tz : Frame.Timezone) (df : Frame.DataFrame) :
  Dashboard.interval inp <> "4h"%string ->
  Dashboard.yf_download ext (Dashboard.symbol inp) (Dashboard.period inp)
    (Dashboard.interval inp) = Dashboard.Ok (tz, df) ->
  df <> [] ->
  (1 <= Dashboard.window inp)%Z ->
  Dashboard.history ext inp []
  = (Dashboard.Ok tt,
     [Dashboard.PlotlyChart
        (Dashboard.make_figure (Dashboard.symbol inp) df
           (Z.to_nat (Dashboard.window inp)) (Fin (Dashboard.std_dev inp)))]).
Proof.
  intros Hint Hyf Hne Hw.
  unfold Dashboard.history, Dashboard.try_except, Dashboard.bind,
    Dashboard.call, Dashboard.show, Dashboard.yf_interval.
  apply String.eqb_neq in Hint. rewrite Hint, Hyf. cbn [fst snd andb].
  destruct df as [| r0 df0]; [congruence |]. cbn [Frame.empty negb].
  unfold Dashboard.rolling_args.
  replace (Dashboard.window inp <? Z.of_nat 1)%Z with false
    by (symmetry; apply Z.ltb_ge; lia).
  reflexivity.
Qed.

Lemma other_intervals_not_resampled_witness :
  Dashboard.history all_up (sidebar "1d") []
  = (Dashboard.Ok tt,
     [Dashboard.PlotlyChart
        (Dashboard.make_figure "AAPL" hourly_bars 20 (Fin 2))]).
Proof.
  apply (other_intervals_not_resampled all_up (sidebar "1d") utc hourly_bars).
  - discriminate.
  - reflexivity.
  - discriminate.
  - simpl. lia.
Defined.

(** X7: when both fundamentals calls return, the block shows exactly three
    metrics in order: the name, the price after a dollar sign, the change
    with the percentage as its delta.  A record without the field shows the
    symbol for the name, N/A for the price, and None for the change and the
    percentage. *)
Theorem fundamentals_metrics
    (ext : Dashboard.Providers) (inp : Dashboard.Inputs)
    (basic_info price_change : Dashboard.Dict) :
  Dashboard.get_basic_info ext (Dashboard.symbol inp) = Dashboard.Ok basic_info ->
  Dashboard.get_current_price_change ext (Dashboard.symbol inp)
  = Dashboard.Ok price_change ->
  snd (Dashboard.fundamentals ext inp [])
  = [Dashboard.Metric "Company Name"
       (Dashboard.get basic_info "name" (Dashboard.symbol inp)) None;
     Dashboard.Metric "Current Price"
       ("$" ++ Dashboard.get basic_info "price" "N/A") None;
     Dashboard.Metric "Change"
       (Dashboard.get price_change "change" "None")
       (Some (Dashboard.get price_change "changePercent" "None" ++ "%")%string)]
  /\ ((forall v, ~ In ("name"%string, v) basic_info) ->
      Dashboard.get basic_info "name" (Dashboard.symbol inp) = Dashboard.symbol inp)
  /\ ((forall v, ~ In ("price"%string, v) basic_info) ->
      Dashboard.get basic_info "price" "N/A" = "N/A"%string)
  /\ ((forall v, ~ In ("change"%string, v) price_change) ->
      Dashboard.get price_change "change" "None" = "None"%string)
  /\ ((forall v, ~ In ("changePercent"%string, v) price_change) ->
      Dashboard.get price_change "changePercent" "None" = "None"%string).
Proof.
  intros H1 H2. split.
  - unfold Dashboard.fundamentals, Dashboard.try_except, Dashboard.bind,
      Dashboard.call, Dashboard.show.
    rewrite H1, H2. reflexivity.
  - repeat split; apply get_missing.
Qed.

Lemma fundamentals_metrics_witness :
  snd (Dashboard.fundamentals bare_quotes (sidebar "1d") [])
  = [Dashboard.Metric "Company Name" "AAPL" None;
     Dashboard.Metric "Current Price" "$N/A" None;
     Dashboard.Metric "Change" "None" (Some "None%"%string)].
Proof.
  destruct (fundamentals_metrics bare_quotes (sidebar "1d") [] []
              eq_refl eq_refl) as [H _].
  rewrite H. reflexivity.
Defined.

(* ================================================================== *)
(** ** More on the indicator columns *)
(* ================================================================== *)

Module ColumnFacts.

Lemma upper_length (w : nat) (k : float64) (s : Series) :
  length (Upper w k s) = length s.
Proof.
  unfold Upper, add, mul_scalar.
  rewrite binop_length, length_map, sma_length, std_length. lia.
Qed.

Lemma lower_length (w : nat) (k : float64) (s : Series) :
  length (Lower w k s) = length s.
Proof.
  unfold Lower, sub, mul_scalar.
  rewrite binop_length, length_map, sma_length, std_length. lia.
Qed.

Lemma nth_map_fin (l : list R) (i : nat) :
  (i < length l)%nat -> nth i (map Fin l) NaN = Fin (nth i l 0).
Proof.
  intros H. rewrite (nth_indep _ NaN (Fin 0)) by now rewrite length_map.
  apply (map_nth Fin).
Qed.

Lemma slice_in (l : list R) (lo len : nat) (x : R) :
  In x (slice l lo len) ->
  exists j, (lo <= j < lo + len)%nat /\ x = nth j l 0.
Proof.
  unfold slice. intros H. apply in_map_iff in H. destruct H as [j [<- Hj]].
  apply in_seq in Hj. now exists j.
Qed.

Lemma Rsum_bounds (lo hi : R) (l : list R) :
  (forall x, In x l -> lo <= x <= hi) ->
  INR (length l) * lo <= Rsum l <= INR (length l) * hi.
Proof.
  induction l as [| x l IH]; intros H.
  - simpl. lra.
  - change (length (x :: l)) with (S (length l)). rewrite S_INR.
    cbn [Rsum fold_right]. fold (Rsum l).
    assert (Hx : lo <= x <= hi) by (apply H; now left).
    assert (Hl : INR (length l) * lo <= Rsum l <= INR (length l) * hi)
      by (apply IH; intros y Hy; apply H; now right).
    lra.
Qed.

(** A mean lies between any bounds of the values it averages. *)
Lemma mean_bounds (lo hi : R) (l : list R) :
  l <> [] -> (forall x, In x l -> lo <= x <= hi) ->
  lo <= arithmetic_mean l <= hi.
Proof.
  intros Hne H. unfold arithmetic_mean.
  assert (Hn : 0 < INR (length l))
    by (apply INR_pos; destruct l; simpl; [congruence | lia]).
  pose proof (Rsum_bounds lo hi l H) as [H1 H2].
  assert (Hinv : 0 < / INR (length l)) by now apply Rinv_0_lt_compat.
  assert (Hone : INR (length l) * / INR (length l) = 1) by (apply Rinv_r; lra).
  unfold Rdiv.
  set (n := INR (length l)) in *. set (q := / n) in *. set (t := Rsum l) in *.
  assert (E1 : n * lo * q = lo) by (rewrite (Rmult_comm n lo), Rmult_assoc, Hone; lra).
  assert (E2 : n * hi * q = hi) by (rewrite (Rmult_comm n hi), Rmult_assoc, Hone; lra).
  assert (G1 : n * lo * q <= t * q) by (apply Rmult_le_compat_r; lra).
  assert (G2 : t * q <= n * hi * q) by (apply Rmult_le_compat_r; lra).
  lra.
Qed.

Lemma mean_constant (c : R) (l : list R) :
  l <> [] -> (forall x, In x l -> x = c) -> arithmetic_mean l = c.
Proof.
  intros Hne H.
  assert (Hb : c <= arithmetic_mean l <= c).
  { apply mean_bounds; [exact Hne |]. intros x Hx. rewrite (H x Hx). lra. }
  lra.
Qed.

Lemma sample_std_constant (c : R) (l : list R) :
  l <> [] -> (forall x, In x l -> x = c) -> sample_std l = 0.
Proof.
  intros Hne H. unfold sample_std. rewrite (mean_constant c l Hne H).
  rewrite Rsum_zero.
  - unfold Rdiv. rewrite Rmult_0_l. apply sqrt_0.
  - intros y Hy. apply in_map_iff in Hy. destruct Hy as [x [<- Hx]].
    rewrite (H x Hx). lra.
Qed.

Lemma sample_std_nonneg (l : list R) : 0 <= sample_std l.
Proof. unfold sample_std. apply sqrt_pos. Qed.

(** A defined deviation is the sample deviation of a window of two or more
    closes. *)
Lemma std_defined_value (w : nat) (closes : list R) (i : nat) (s : R) :
  nth i (STD w (map Fin closes)) NaN = Fin s ->
  (i < length closes)%nat /\ (1 <= w)%nat
  /\ (2 <= Nat.min (i + 1) w)%nat
  /\ s = sample_std (slice closes (i + 1 - w) (Nat.min (i + 1) w)).
Proof.
  intros H. destruct (std_defined_row _ _ _ _ H) as [Hi Hw].
  split; [exact Hi | split; [exact Hw |]].
  rewrite std_nth in H by exact Hi.
  destruct (Nat.le_gt_cases 2 (Nat.min (i + 1) w)) as [H2 | H2].
  - split; [exact H2 |].
    rewrite window_std_fin in H by (now rewrite slice_length).
    now inversion H.
  - rewrite window_std_single in H by (rewrite slice_length; lia).
    discriminate.
Qed.

End ColumnFacts.
Import ColumnFacts.

(** X8: every trace of the figure has one point per row of the frame, so
    the three panels share their x axis row by row. *)
Theorem figure_traces_aligned
    (sym : string) (df : Frame.DataFrame) (w : nat) (k : float64) :
  let fig := Dashboard.make_figure sym df w k in
  length (Dashboard.candlestick fig) = length df
  /\ length (Dashboard.upper_bb fig) = length df
  /\ length (Dashboard.lower_bb fig) = length df
  /\ length (Dashboard.sma_line fig) = length df
  /\ length (Dashboard.rsi_line fig) = length df
  /\ length (Dashboard.volume_y fig) = length df
  /\ length (Dashboard.marker_color fig) = length df.
Proof.
  cbn. unfold Dashboard.colors.
  rewrite upper_length, lower_length, sma_length, rsi_length, !length_map.
  repeat split; reflexivity.
Qed.

(** X9: where the rolling deviation is defined it is not negative, so with
    a multiplier k >= 0 the lower band is at most the average and the
    average at most the upper band; with k <= 0 the two bands swap sides. *)
Theorem bands_ordered (closes : list R) (w : nat) (k : R) (i : nat) (s : R) :
  nth i (STD w (map Fin closes)) NaN = Fin s ->
  0 <= s
  /\ exists lo m hi,
       nth i (Lower w (Fin k) (map Fin closes)) NaN = Fin lo
       /\ nth i (SMA w (map Fin closes)) NaN = Fin m
       /\ nth i (Upper w (Fin k) (map Fin closes)) NaN = Fin hi
       /\ (0 <= k -> lo <= m <= hi)
       /\ (k <= 0 -> hi <= m <= lo).
Proof.
  intros Hs. destruct (std_defined_value _ _ _ _ Hs) as (Hi & Hw & _ & Hval).
  assert (Hpos : 0 <= s) by (rewrite Hval; apply sample_std_nonneg).
  split; [exact Hpos |].
  exists (arithmetic_mean (slice closes (i + 1 - w) (Nat.min (i + 1) w)) - s * k).
  exists (arithmetic_mean (slice closes (i + 1 - w) (Nat.min (i + 1) w))).
  exists (arithmetic_mean (slice closes (i + 1 - w) (Nat.min (i + 1) w)) + s * k).
  rewrite upper_nth, lower_nth, Hs, sma_nth by assumption.
  cbn [fmul fadd fsub fneg].
  split; [reflexivity | split; [reflexivity | split; [reflexivity |]]].
  split; intros Hk; nra.
Qed.

Lemma bands_ordered_witness :
  exists lo m hi,
    nth 9 (Lower 3 (Fin 2) (map Fin scenario_closes)) NaN = Fin lo
    /\ nth 9 (SMA 3 (map Fin scenario_closes)) NaN = Fin m
    /\ nth 9 (Upper 3 (Fin 2) (map Fin scenario_closes)) NaN = Fin hi
    /\ lo <= m <= hi.
Proof.
  assert (H : nth 9 (STD 3 (map Fin scenario_closes)) NaN
              = Fin (sample_std (slice scenario_closes 7 3))).
  { rewrite std_nth by (simpl; lia).
    change (9 + 1 - 3)%nat with 7%nat. change (Nat.min (9 + 1) 3) with 3%nat.
    apply window_std_fin. rewrite slice_length. lia. }
  destruct (bands_ordered scenario_closes 3 2 9 _ H)
    as (_ & lo & m & hi & H1 & H2 & H3 & Hord & _).
  exists lo, m, hi. repeat split; try assumption; apply Hord; lra.
Defined.

(** X10: on a row whose window holds the same close c throughout, the
    average is c; if the window holds at least two rows the deviation is 0
    and both bands lie on the average. *)
Theorem flat_window_collapses_bands
    (closes : list R) (w : nat) (k : R) (i : nat) (c : R) :
  (1 <= w)%nat -> (i < length closes)%nat ->
  (forall j, (i + 1 - w <= j <= i)%nat -> nth j closes 0 = c) ->
  nth i (SMA w (map Fin closes)) NaN = Fin c
  /\ ((2 <= w)%nat -> (1 <= i)%nat ->
      nth i (STD w (map Fin closes)) NaN = Fin 0
      /\ nth i (Upper w (Fin k) (map Fin closes)) NaN = Fin c
      /\ nth i (Lower w (Fin k) (map Fin closes)) NaN = Fin c).
Proof.
  intros Hw Hi Hflat.
  set (win := slice closes (i + 1 - w) (Nat.min (i + 1) w)).
  assert (Hne : win <> []).
  { intros E. assert (Hl : length win = 0%nat) by now rewrite E.
    unfold win in Hl. rewrite slice_length in Hl. lia. }
  assert (Hall : forall x, In x win -> x = c).
  { intros x Hx. apply slice_in in Hx. destruct Hx as [j [Hj ->]].
    apply Hflat. lia. }
  assert (Hm : nth i (SMA w (map Fin closes)) NaN = Fin c).
  { rewrite sma_nth by assumption. fold win. f_equal.
    now apply mean_constant. }
  split; [exact Hm |]. intros Hw2 Hi1.
  assert (Hs : nth i (STD w (map Fin closes)) NaN = Fin 0).
  { rewrite std_nth by exact Hi. fold win.
    rewrite window_std_fin by (unfold win; rewrite slice_length; lia).
    f_equal. now apply (sample_std_constant c). }
  split; [exact Hs |].
  rewrite upper_nth, lower_nth, Hs, Hm. cbn [fmul fadd fsub fneg].
  split; f_equal; lra.
Qed.

Lemma flat_window_collapses_bands_witness :
  nth 14 (SMA 3 (map Fin flat_closes)) NaN = Fin 5
  /\ nth 14 (STD 3 (map Fin flat_closes)) NaN = Fin 0.
Proof.
  assert (Hflat : forall j, (14 + 1 - 3 <= j <= 14)%nat -> nth j flat_closes 0 = 5).
  { intros j Hj. unfold flat_closes. apply nth_repeat_lt. lia. }
  assert (Hlen : (14 < length flat_closes)%nat) by (simpl; lia).
  assert (Hw : (1 <= 3)%nat) by lia.
  destruct (flat_window_collapses_bands flat_closes 3 2 14 5 Hw Hlen Hflat)
    as [H1 H2].
  split; [exact H1 |]. apply H2; lia.
Defined.

(** X11: with a window of one row the average column is the close column
    itself, and the deviation and both bands are missing on every row. *)
Theorem window_one_has_no_bands (closes : list R) (k : float64) :
  SMA 1 (map Fin closes) = map Fin closes
  /\ STD 1 (map Fin closes) = repeat NaN (length closes)
  /\ Upper 1 k (map Fin closes) = repeat NaN (length closes)
  /\ Lower 1 k (map Fin closes) = repeat NaN (length closes).
Proof.
  assert (Hstd : forall i, nth i (STD 1 (map Fin closes)) NaN = NaN).
  { intros i. destruct (Nat.lt_ge_cases i (length closes)) as [Hi | Hi].
    - rewrite std_nth by exact Hi. apply window_std_single.
      rewrite slice_length. lia.
    - apply nth_overflow. now rewrite std_length, length_map. }
  assert (Hrep : forall i, nth i (repeat NaN (length closes)) NaN = NaN).
  { intros i. destruct (Nat.lt_ge_cases i (length closes)) as [Hi | Hi].
    - now apply nth_repeat_lt.
    - apply nth_overflow. now rewrite repeat_length. }
  split; [| split; [| split]].
  - apply (nth_ext _ _ NaN NaN); [now rewrite sma_length |].
    intros i Hi. rewrite sma_length, length_map in Hi.
    rewrite sma_nth, nth_map_fin by (try lia; exact Hi). f_equal.
    replace (i + 1 - 1)%nat with i by lia.
    replace (Nat.min (i + 1) 1) with 1%nat by lia.
    unfold arithmetic_mean, slice. simpl. lra.
  - apply (nth_ext _ _ NaN NaN);
      [now rewrite std_length, length_map, repeat_length |].
    intros i _. now rewrite Hstd, Hrep.
  - apply (nth_ext _ _ NaN NaN);
      [now rewrite upper_length, length_map, repeat_length |].
    intros i _. rewrite upper_nth, Hstd, Hrep.
    destruct (nth i (SMA 1 (map Fin closes)) NaN); reflexivity.
  - apply (nth_ext _ _ NaN NaN);
      [now rewrite lower_length, length_map, repeat_length |].
    intros i _. rewrite lower_nth, Hstd, Hrep.
    destruct (nth i (SMA 1 (map Fin closes)) NaN); reflexivity.
Qed.



(* ================================================================== *)
(** ** More on the RSI *)
(* ================================================================== *)

Module OscillatorFacts.

Lemma repeat_nan_nth (n i : nat) : nth i (repeat NaN n) NaN = NaN.
Proof.
  destruct (Nat.lt_ge_cases i n) as [Hi | Hi].
  - now apply nth_repeat_lt.
  - apply nth_overflow. now rewrite repeat_length.
Qed.

End OscillatorFacts.
Import OscillatorFacts.

(** X13: on a frame of 13 rows or fewer the RSI column is missing on every
    row: the RSI panel stays empty. *)
Theorem rsi_missing_on_short_frames (closes : list R) :
  (length closes <= 13)%nat ->
  RSI (map Fin closes) = repeat NaN (length closes).
Proof.
  intros Hn. apply (nth_ext _ _ NaN NaN).
  - now rewrite rsi_length, length_map, repeat_length.
  - intros i Hi. rewrite rsi_length, length_map in Hi.
    rewrite rsi_nth, gain_nth, loss_nth, repeat_nan_nth by exact Hi.
    replace (13 <=? i)%nat with false by (symmetry; apply Nat.leb_gt; lia).
    reflexivity.
Qed.

Lemma rsi_missing_on_short_frames_witness :
  RSI (map Fin scenario_closes) = repeat NaN 10.
Proof.
  apply (rsi_missing_on_short_frames scenario_closes). simpl. lia.
Defined.

(** X14: on a row where the average loss is positive, the RSI is 0 when
    the window holds no gain and 50 when the average gain equals the
    average loss; it is at least 50 when the gains outweigh the losses and
    at most 50 when the losses outweigh the gains. *)
Theorem rsi_midline (closes : list R) (i : nat) (g l : R) :
  nth i (gain (map Fin closes)) NaN = Fin g ->
  nth i (loss (map Fin closes)) NaN = Fin l ->
  0 < l ->
  exists x,
    nth i (RSI (map Fin closes)) NaN = Fin x
    /\ (g = 0 -> x = 0)
    /\ (g = l -> x = 50)
    /\ (l <= g -> 50 <= x)
    /\ (g <= l -> x <= 50).
Proof.
  intros Hg Hl Hpos.
  assert (Hg0 : 0 <= g).
  { destruct (averages_shape closes i) as [[E _] | (a & b & Ea & _ & Ha & _)].
    - rewrite E in Hg. discriminate.
    - rewrite Ea in Hg. inversion Hg. now subst. }
  exists (100 - 100 / (1 + g / l)). split.
  { rewrite rsi_nth, Hg, Hl. unfold rsi_point.
    rewrite fdiv_fin by lra. cbn [fadd].
    assert (Hq : 0 <= g / l).
    { apply Rmult_le_pos; [exact Hg0 |]. left. now apply Rinv_0_lt_compat. }
    rewrite fdiv_fin by lra. reflexivity. }
  assert (Hli : 0 < / l) by now apply Rinv_0_lt_compat.
  assert (Hl1 : l * / l = 1) by (apply Rinv_r; lra).
  set (q := g / l).
  assert (Hq : q * l = g) by (unfold q, Rdiv; rewrite Rmult_assoc, (Rmult_comm (/ l)), Hl1; lra).
  assert (Hq0 : 0 <= q) by (unfold q, Rdiv; apply Rmult_le_pos; lra).
  assert (Hu : 0 < / (1 + q)) by (apply Rinv_0_lt_compat; lra).
  assert (Hu1 : (1 + q) * / (1 + q) = 1) by (apply Rinv_r; lra).
  unfold Rdiv. set (v := / (1 + q)) in *.
  repeat split.
  - intros E. assert (q = 0) by nra. nra.
  - intros E. assert (q = 1) by nra. nra.
  - intros E. assert (1 <= q) by nra. nra.
  - intros E. assert (q <= 1) by nra. nra.
Qed.

Lemma rsi_midline_witness :
  exists x, nth 13 (RSI (map Fin fourteen_closes)) NaN = Fin x /\ 50 <= x.
Proof.
  assert (Hg : nth 13 (gain (map Fin fourteen_closes)) NaN = Fin (12 / 14)).
  { rewrite gain_nth by (simpl; lia). cbn [Nat.leb Nat.sub]. f_equal.
    eval_rows fourteen_closes. }
  assert (Hl : nth 13 (loss (map Fin fourteen_closes)) NaN = Fin (4 / 14)).
  { rewrite loss_nth by (simpl; lia). cbn [Nat.leb Nat.sub]. f_equal.
    eval_rows fourteen_closes. }
  assert (Hpos : 0 < 4 / 14) by lra.
  destruct (rsi_midline fourteen_closes 13 _ _ Hg Hl Hpos)
    as (x & Hx & _ & _ & Hge & _).
  exists x. split; [exact Hx |]. apply Hge. lra.
Defined.

(* ================================================================== *)
(** ** More on the resampling *)
(* ================================================================== *)

Module BinFacts.
Import Frame.

Lemma sorted_seq (a m : nat) : StronglySorted Nat.lt (seq a m).
Proof.
  revert a. induction m as [| m IH]; intros a; simpl; constructor.
  - apply IH.
  - apply Forall_forall. intros x Hx. apply in_seq in Hx. lia.
Qed.

Lemma sorted_map {A B : Type} (RA : A -> A -> Prop) (RB : B -> B -> Prop)
    (f : A -> B) (l : list A) :
  (forall x y, RA x y -> RB (f x) (f y)) ->
  StronglySorted RA l -> StronglySorted RB (map f l).
Proof.
  intros Hf H. induction H as [| a l Hs IH Hall]; simpl; constructor.
  - exact IH.
  - apply Forall_forall. intros y Hy. apply in_map_iff in Hy.
    destruct Hy as [x [<- Hx]]. apply Hf.
    rewrite Forall_forall in Hall. now apply Hall.
Qed.

Lemma sorted_filter {A : Type} (RA : A -> A -> Prop) (p : A -> bool) (l : list A) :
  StronglySorted RA l -> StronglySorted RA (filter p l).
Proof.
  intros H. induction H as [| a l Hs IH Hall]; simpl; [constructor |].
  destruct (p a); [| exact IH]. constructor; [exact IH |].
  apply Forall_forall. intros y Hy. apply filter_In in Hy.
  rewrite Forall_forall in Hall. now apply Hall.
Qed.

Lemma bucket_range_sorted (o : Z) (df : DataFrame) :
  StronglySorted Z.lt (bucket_range o df).
Proof.
  destruct df as [| r0 df]; [constructor |].
  unfold bucket_range. apply (sorted_map Nat.lt); [| apply sorted_seq].
  intros x y Hxy. lia.
Qed.

(** The bins that give a row, in order. *)
Lemma kept_bins_sorted (o : Z) (df : DataFrame) :
  StronglySorted Z.lt
    (filter (fun k => negb (has_nan (agg_bucket o df k))) (bucket_range o df)).
Proof. apply sorted_filter, bucket_range_sorted. Qed.

Lemma resample_from_sorted (o : Z) (df : DataFrame) :
  ascending (resample_from o df).
Proof.
  rewrite resample_from_eq. unfold ascending.
  apply (sorted_map Z.lt); [| apply kept_bins_sorted].
  intros x y Hxy. cbn [agg_bucket ts]. unfold four_hours. lia.
Qed.

Lemma kept_bin_has_bars (o : Z) (df : DataFrame) (k : Z) :
  negb (has_nan (agg_bucket o df k)) = true -> in_bucket o k df <> [].
Proof.
  intros H E. rewrite (agg_bucket_empty o df k E) in H. discriminate.
Qed.

Lemma finite_value (a : float64) : finite a = true -> a = Fin (value a).
Proof. destruct a; simpl; congruence. Qed.

Lemma volume_column (g : DataFrame) :
  forallb finite_row g = true ->
  map Volume g = map Fin (map (fun r => value (Volume r)) g).
Proof.
  intros H. rewrite map_map. apply map_ext_in. intros r Hr.
  apply finite_value. rewrite forallb_forall in H.
  specialize (H r Hr). apply finite_row_fields in H. tauto.
Qed.

Lemma fsum_volume (g : DataFrame) :
  forallb finite_row g = true -> fsum (map Volume g) = Fin (total_volume g).
Proof. intros H. rewrite volume_column by exact H. apply fsum_fin. Qed.

Lemma agg_bucket_volume (o : Z) (df : DataFrame) (k : Z) :
  forallb finite_row df = true ->
  Volume (agg_bucket o df k) = Fin (total_volume (in_bucket o k df)).
Proof.
  intros H. unfold agg_bucket. cbn [Volume].
  assert (Hg : forallb finite_row (in_bucket o k df) = true)
    by now apply in_bucket_finite.
  assert (Hv : forallb finite (map Volume (in_bucket o k df)) = true).
  { apply finite_column; [| exact Hg].
    intros r Hr. apply finite_row_fields in Hr. tauto. }
  destruct (agg_sum_finite _ Hv) as [-> _]. now apply fsum_volume.
Qed.

Lemma Rsum_filter_zero {A : Type} (f : A -> R) (p : A -> bool) (l : list A) :
  (forall x, In x l -> p x = false -> f x = 0) ->
  Rsum (map f (filter p l)) = Rsum (map f l).
Proof.
  induction l as [| x l IH]; intros H; simpl; [reflexivity |].
  assert (IH' : Rsum (map f (filter p l)) = Rsum (map f l))
    by (apply IH; intros y Hy; apply H; now right).
  destruct (p x) eqn:E; simpl; unfold Rsum in *.
  - now rewrite IH'.
  - rewrite IH', (H x (or_introl eq_refl) E). lra.
Qed.

(** One key of a duplicate-free list is hit once. *)
Lemma Rsum_indicator (k : Z) (v : R) (ks : list Z) :
  NoDup ks -> In k ks ->
  Rsum (map (fun k' => if (k =? k')%Z then v else 0) ks) = v.
Proof.
  intros Hnd. induction Hnd as [| x ks Hx Hnd IH]; intros Hin; [contradiction |].
  cbn [map Rsum fold_right].
  fold (Rsum (map (fun k' => if (k =? k')%Z then v else 0) ks)).
  destruct Hin as [-> | Hin].
  - rewrite Z.eqb_refl. rewrite Rsum_zero; [lra |].
    intros y Hy. apply in_map_iff in Hy. destruct Hy as [k' [<- Hk']].
    destruct (k =? k')%Z eqn:E; [| reflexivity].
    apply Z.eqb_eq in E. subst k'. contradiction.
  - rewrite IH by exact Hin.
    destruct (k =? x)%Z eqn:E; [| lra].
    apply Z.eqb_eq in E. subst x. contradiction.
Qed.

Lemma Rsum_map_plus {A : Type} (f g : A -> R) (l : list A) :
  Rsum (map (fun x => f x + g x) l) = Rsum (map f l) + Rsum (map g l).
Proof. induction l as [| x l IH]; simpl; [lra |]. unfold Rsum in *. lra. Qed.

(** Summing bin by bin is summing row by row. *)
Lemma volume_by_bins (o : Z) (ks : list Z) (df : DataFrame) :
  NoDup ks -> (forall r, In r df -> In (bucket o (ts r)) ks) ->
  Rsum (map (fun k => total_volume (in_bucket o k df)) ks) = total_volume df.
Proof.
  intros Hnd. induction df as [| r df IH]; intros Hin.
  - unfold in_bucket, total_volume. simpl.
    apply Rsum_zero. intros y Hy. apply in_map_iff in Hy.
    now destruct Hy as [k [<- _]].
  - rewrite (map_ext _ (fun k => (if (bucket o (ts r) =? k)%Z
                                  then value (Volume r) else 0)
                                 + total_volume (in_bucket o k df))).
    + rewrite Rsum_map_plus, IH by (intros r' Hr'; apply Hin; now right).
      rewrite Rsum_indicator; [| exact Hnd | apply Hin; now left].
      unfold total_volume. simpl. unfold Rsum. lra.
    + intros k. unfold in_bucket. cbn [filter].
      destruct (bucket o (ts r) =? k)%Z; unfold total_volume; simpl;
        unfold Rsum; lra.
Qed.

Lemma fltb_false_le (a b : float64) :
  finite a = true -> finite b = true -> fltb a b = false -> value b <= value a.
Proof.
  destruct a as [x | | |], b as [y | | |]; try discriminate.
  intros _ _ H. simpl in *. destruct (Rlt_dec x y); [discriminate | lra].
Qed.

Lemma hd_In {A : Type} (d : A) (l : list A) : l <> [] -> In (hd d l) l.
Proof. destruct l; [congruence | intros _; now left]. Qed.

(** The rows of a binned frame are well formed when its bars are. *)
Lemma resample_from_consistent (o : Z) (df : DataFrame) :
  forallb finite_row df = true ->
  (forall r, In r df -> consistent_bar r) ->
  forall row, In row (resample_from o df) ->
    finite_row row = true /\ consistent_bar row.
Proof.
  intros Hfin Hcons row Hrow.
  apply in_resample_from in Hrow; [| exact Hfin].
  destruct Hrow as [k (_ & Hne & ->)].
  set (g := in_bucket o k df). set (row := agg_bucket o df k).
  destruct (agg_bucket_group o df k Hfin Hne)
    as (_ & HO & [HHin HHub] & [HLin HLlb] & HC & HV).
  fold g row in HO, HHin, HHub, HLin, HLlb, HC, HV.
  assert (Hg : forall r, In r g -> In r df /\ finite_row r = true).
  { intros r Hr. apply filter_In in Hr. destruct Hr as [Hr _].
    split; [exact Hr |]. rewrite forallb_forall in Hfin. now apply Hfin. }
  assert (Hfirst : In (hd row g) g) by now apply hd_In.
  assert (Hlast : In (last g row) g) by now apply last_In.
  apply in_map_iff in HHin. destruct HHin as [rh [EH Hrh]].
  apply in_map_iff in HLin. destruct HLin as [rl [EL Hrl]].
  destruct (finite_row_fields _ (proj2 (Hg _ Hfirst))) as (FO & FOH & FOL & _ & _).
  destruct (finite_row_fields _ (proj2 (Hg _ Hlast))) as (_ & FCH & FCL & FC & _).
  destruct (finite_row_fields _ (proj2 (Hg _ Hrh))) as (_ & FH & _ & _ & _).
  destruct (finite_row_fields _ (proj2 (Hg _ Hrl))) as (_ & _ & FL & _ & _).
  assert (FrO : finite (Open row) = true) by now rewrite HO.
  assert (FrC : finite (Close row) = true) by now rewrite HC.
  assert (FrH : finite (High row) = true) by now rewrite <- EH.
  assert (FrL : finite (Low row) = true) by now rewrite <- EL.
  assert (FrV : finite (Volume row) = true).
  { rewrite HV, fsum_volume; [reflexivity |].
    now apply in_bucket_finite. }
  split.
  { unfold finite_row. now rewrite FrO, FrH, FrL, FrC, FrV. }
  destruct (Hcons _ (proj1 (Hg _ Hfirst))) as [[A1 A2] _].
  destruct (Hcons _ (proj1 (Hg _ Hlast))) as [_ [B1 B2]].
  pose proof (fltb_false_le _ _ FrH FOH (HHub _ Hfirst)) as U1.
  pose proof (fltb_false_le _ _ FrH FCH (HHub _ Hlast)) as U2.
  pose proof (fltb_false_le _ _ FOL FrL (HLlb _ Hfirst)) as L1.
  pose proof (fltb_false_le _ _ FCL FrL (HLlb _ Hlast)) as L2.
  unfold consistent_bar. rewrite HO, HC. lra.
Qed.

End BinFacts.
Import BinFacts.

(** X19: resampling keeps the traded volume: over a frame of finite,
    ascending bars the volumes of the 4-hour rows add up to the volumes of
    the hourly rows. *)
Theorem resample_4h_keeps_volume (tz : Frame.Timezone) (df : Frame.DataFrame) :
  forallb Frame.finite_row df = true -> Frame.ascending df ->
  fsum (map Frame.Volume (Frame.resample_4h tz df)) = Fin (total_volume df)
  /\ fsum (map Frame.Volume df) = Fin (total_volume df).
Proof.
  intros Hfin Hasc. split; [| now apply fsum_volume].
  rewrite (resample_4h_ascending_eq tz df Hasc).
  set (o := Frame.start_day tz df).
  rewrite resample_from_eq, map_map.
  rewrite (map_ext _ (fun k => Fin (total_volume (Frame.in_bucket o k df))))
    by (intros k; now apply agg_bucket_volume).
  rewrite <- (map_map (fun k => total_volume (Frame.in_bucket o k df)) Fin).
  rewrite fsum_fin. f_equal.
  rewrite Rsum_filter_zero.
  - apply volume_by_bins; [apply bucket_range_NoDup |].
    intros r Hr. apply bucket_in_range; [| exact Hr].
    now apply ascending_nondecreasing.
  - intros k _ Hk.
    destruct (Frame.in_bucket o k df) as [| r g] eqn:E; [reflexivity |].
    assert (Hne : Frame.in_bucket o k df <> []) by (rewrite E; discriminate).
    destruct (agg_bucket_group o df k Hfin Hne) as [Hnan _].
    rewrite Hnan in Hk. discriminate.
Qed.

Lemma resample_4h_keeps_volume_witness :
  fsum (map Frame.Volume (Frame.resample_4h utc hourly_bars))
  = fsum (map Frame.Volume hourly_bars).
Proof.
  assert (H1 : forallb Frame.finite_row hourly_bars = true) by reflexivity.
  assert (H2 : Frame.ascending hourly_bars).
  { unfold Frame.ascending, hourly_bars.
    repeat (constructor; [| repeat (constructor; [simpl; lia |]); constructor]).
    constructor. }
  destruct (resample_4h_keeps_volume utc hourly_bars H1 H2) as [Ha Hb].
  now rewrite Ha, Hb.
Defined.

(** X20: resampling keeps bars well formed: if every downloaded bar is
    finite with its open and close between its low and its high, so is
    every 4-hour row. *)
Theorem resample_4h_keeps_bars_consistent
    (tz : Frame.Timezone) (df : Frame.DataFrame) :
  forallb Frame.finite_row df = true ->
  (forall r, In r df -> consistent_bar r) ->
  forall row, In row (Frame.resample_4h tz df) ->
    Frame.finite_row row = true /\ consistent_bar row.
Proof.
  intros Hfin Hcons. unfold Frame.resample_4h.
  apply resample_from_consistent.
  - now apply sort_index_finite.
  - intros r Hr. apply Hcons. now apply sort_index_In.
Qed.

Lemma resample_4h_keeps_bars_consistent_witness :
  Forall (fun row => Frame.finite_row row = true /\ consistent_bar row)
         (Frame.resample_4h utc hourly_bars).
Proof.
  apply Forall_forall.
  apply (resample_4h_keeps_bars_consistent utc hourly_bars).
  - reflexivity.
  - intros r Hr. unfold hourly_bars in Hr. simpl in Hr.
    repeat (destruct Hr as [<- | Hr];
            [unfold consistent_bar; simpl; lra |]).
    contradiction.
Defined.

(** X21: resampling never makes more rows than it was given, and on a
    frame of finite, ascending bars that is not empty it leaves at least
    one row. *)
Theorem resample_4h_row_count (tz : Frame.Timezone) (df : Frame.DataFrame) :
  (length (Frame.resample_4h tz df) <= length df)%nat
  /\ (forallb Frame.finite_row df = true -> Frame.ascending df -> df <> [] ->
      Frame.resample_4h tz df <> []).
Proof.
  split.
  - unfold Frame.resample_4h.
    set (s := Frame.sort_index df). set (o := Frame.start_day tz s).
    rewrite resample_from_eq, length_map.
    rewrite <- (sort_index_length df). fold s.
    rewrite <- (length_map (fun r => Frame.bucket o (Frame.ts r)) s).
    apply NoDup_incl_length.
    + apply NoDup_filter, bucket_range_NoDup.
    + intros k Hk. apply filter_In in Hk. destruct Hk as [_ Hk].
      apply kept_bin_has_bars in Hk.
      destruct (Frame.in_bucket o k s) as [| r g] eqn:E; [congruence |].
      assert (Hr : In r (Frame.in_bucket o k s)) by (rewrite E; now left).
      apply filter_In in Hr. destruct Hr as [Hr Hb].
      apply Z.eqb_eq in Hb. apply in_map_iff. now exists r.
  - intros Hfin Hasc Hne E.
    rewrite (resample_4h_ascending_eq tz df Hasc) in E.
    set (o := Frame.start_day tz df) in E.
    destruct df as [| r0 df0]; [congruence |].
    assert (Hin : In (Frame.agg_bucket o (r0 :: df0) (Frame.bucket o (Frame.ts r0)))
                     (Frame.resample_from o (r0 :: df0))).
    { apply in_resample_from; [exact Hfin |].
      exists (Frame.bucket o (Frame.ts r0)).
      split; [apply bucket_in_range;
              [now apply ascending_nondecreasing | now left] |].
      split; [| reflexivity].
      unfold Frame.in_bucket. cbn [filter]. rewrite Z.eqb_refl. discriminate. }
    rewrite E in Hin. contradiction.
Qed.

Module RebinFacts.
Import Frame.

Lemma filter_key_absent (k : Z) (ks : list Z) :
  ~ In k ks -> filter (fun k' => (k' =? k)%Z) ks = [].
Proof.
  induction ks as [| x ks IH]; intros H; simpl; [reflexivity |].
  destruct (x =? k)%Z eqn:E.
  - apply Z.eqb_eq in E. subst x. exfalso. apply H. now left.
  - apply IH. intros Hin. apply H. now right.
Qed.

Lemma filter_key_present (k : Z) (ks : list Z) :
  NoDup ks -> In k ks -> filter (fun k' => (k' =? k)%Z) ks = [k].
Proof.
  intros Hnd. induction Hnd as [| x ks Hx Hnd IH]; intros Hin; [contradiction |].
  simpl. destruct (x =? k)%Z eqn:E.
  - apply Z.eqb_eq in E. subst x. now rewrite filter_key_absent.
  - destruct Hin as [-> | Hin]; [rewrite Z.eqb_refl in E; discriminate |].
    now apply IH.
Qed.

Lemma sorted_NoDup (l : list Z) : StronglySorted Z.lt l -> NoDup l.
Proof.
  intros H. induction H as [| a l Hs IH Hall]; constructor; [| exact IH].
  intros Hin. rewrite Forall_forall in Hall. specialize (Hall a Hin). lia.
Qed.

(** Two increasing lists with the same elements are the same list. *)
Lemma sorted_same_elements (l1 l2 : list Z) :
  StronglySorted Z.lt l1 -> StronglySorted Z.lt l2 ->
  (forall x, In x l1 <-> In x l2) -> l1 = l2.
Proof.
  intros H1. revert l2. induction H1 as [| a t1 Hs1 IH Hall1]; intros l2 H2 Hsame.
  - destruct l2 as [| b t2]; [reflexivity |].
    exfalso. apply (proj2 (Hsame b)). now left.
  - destruct H2 as [| b t2 Hs2 Hall2].
    + exfalso. apply (proj1 (Hsame a)). now left.
    + rewrite Forall_forall in Hall1, Hall2.
      assert (Hab : a = b).
      { destruct (proj1 (Hsame a) (or_introl eq_refl)) as [E | Ha]; [now symmetry |].
        destruct (proj2 (Hsame b) (or_introl eq_refl)) as [E | Hb]; [exact E |].
        specialize (Hall1 b Hb). specialize (Hall2 a Ha). lia. }
      subst b. f_equal. apply IH; [exact Hs2 |].
      intros x. split; intros Hx.
      * destruct (proj1 (Hsame x) (or_intror Hx)) as [E | Hx2]; [| exact Hx2].
        specialize (Hall1 x Hx). lia.
      * destruct (proj2 (Hsame x) (or_intror Hx)) as [E | Hx1]; [| exact Hx1].
        specialize (Hall2 x Hx). lia.
Qed.

Lemma agg_single (a : float64) :
  finite a = true ->
  agg_first [a] = a /\ agg_max [a] = a /\ agg_min [a] = a
  /\ agg_last [a] = a /\ agg_sum [a] = a.
Proof.
  destruct a as [x | | |]; try discriminate. intros _.
  unfold agg_first, agg_max, agg_min, agg_last, agg_sum, fsum, observations.
  simpl. repeat split. f_equal. lra.
Qed.

Lemma agg_bucket_finite (o : Z) (df : DataFrame) (k : Z) :
  forallb finite_row df = true -> in_bucket o k df <> [] ->
  finite_row (agg_bucket o df k) = true.
Proof.
  intros Hfin Hne.
  set (g := in_bucket o k df). set (row := agg_bucket o df k).
  destruct (agg_bucket_group o df k Hfin Hne)
    as (_ & HO & [HHin _] & [HLin _] & HC & HV).
  fold g row in HO, HHin, HLin, HC, HV.
  assert (Hg : forall r, In r g -> finite_row r = true).
  { intros r Hr. apply filter_In in Hr. destruct Hr as [Hr _].
    rewrite forallb_forall in Hfin. now apply Hfin. }
  apply in_map_iff in HHin. destruct HHin as [rh [EH Hrh]].
  apply in_map_iff in HLin. destruct HLin as [rl [EL Hrl]].
  destruct (finite_row_fields _ (Hg _ (hd_In row g Hne))) as (FO & _).
  destruct (finite_row_fields _ (Hg _ (last_In row g Hne))) as (_ & _ & _ & FC & _).
  destruct (finite_row_fields _ (Hg _ Hrh)) as (_ & FH & _).
  destruct (finite_row_fields _ (Hg _ Hrl)) as (_ & _ & FL & _).
  unfold finite_row.
  rewrite HO, FO, <- EH, FH, <- EL, FL, HC, FC, HV.
  rewrite fsum_volume by now apply in_bucket_finite.
  reflexivity.
Qed.

Section Rebin.
Variable o : Z.
Variable df : DataFrame.
Hypothesis Hfin : forallb finite_row df = true.

Let kept : list Z :=
  filter (fun k => negb (has_nan (agg_bucket o df k))) (bucket_range o df).

Lemma in_bucket_resampled (k : Z) :
  in_bucket o k (resample_from o df)
  = map (agg_bucket o df) (filter (fun k' => (k' =? k)%Z) kept).
Proof.
  rewrite resample_from_eq. fold kept. unfold in_bucket.
  rewrite filter_map_swap. f_equal. apply filter_ext.
  intros k'. cbn [agg_bucket ts]. now rewrite bucket_label.
Qed.

Lemma rebin_kept (k : Z) :
  In k kept -> agg_bucket o (resample_from o df) k = agg_bucket o df k.
Proof.
  intros Hk.
  assert (Hne : in_bucket o k df <> []).
  { apply filter_In in Hk. now apply kept_bin_has_bars. }
  pose proof (agg_bucket_finite o df k Hfin Hne) as Hrow.
  apply finite_row_fields in Hrow. destruct Hrow as (FO & FH & FL & FC & FV).
  unfold agg_bucket at 1. rewrite in_bucket_resampled.
  rewrite filter_key_present
    by (try exact Hk; apply sorted_NoDup, kept_bins_sorted).
  cbn [map].
  destruct (agg_single _ FO) as (-> & _).
  destruct (agg_single _ FH) as (_ & -> & _).
  destruct (agg_single _ FL) as (_ & _ & -> & _).
  destruct (agg_single _ FC) as (_ & _ & _ & -> & _).
  destruct (agg_single _ FV) as (_ & _ & _ & _ & ->).
  reflexivity.
Qed.

Lemma rebin_dropped (k : Z) :
  ~ In k kept -> has_nan (agg_bucket o (resample_from o df) k) = true.
Proof.
  intros Hk. apply agg_bucket_empty.
  rewrite in_bucket_resampled, filter_key_absent by exact Hk. reflexivity.
Qed.

Lemma kept_in_new_range (k : Z) :
  In k kept -> In k (bucket_range o (resample_from o df)).
Proof.
  intros Hk.
  rewrite <- (bucket_label o k).
  change (o + k * four_hours)%Z with (ts (agg_bucket o df k)).
  apply bucket_in_range.
  - apply ascending_nondecreasing, resample_from_sorted.
  - rewrite resample_from_eq. fold kept. now apply in_map.
Qed.

Lemma rebin_same_bins :
  filter (fun k => negb (has_nan (agg_bucket o (resample_from o df) k)))
         (bucket_range o (resample_from o df))
  = kept.
Proof.
  apply sorted_same_elements.
  - apply kept_bins_sorted.
  - apply kept_bins_sorted.
  - intros k. rewrite filter_In. split.
    + intros [_ Hk].
      destruct (in_dec Z.eq_dec k kept) as [Hin | Hout]; [exact Hin |].
      rewrite (rebin_dropped k Hout) in Hk. discriminate.
    + intros Hk. split; [now apply kept_in_new_range |].
      rewrite (rebin_kept k Hk).
      apply filter_In in Hk. tauto.
Qed.

(** Binning a binned frame again, from the same anchor, changes nothing. *)
Lemma resample_from_again :
  resample_from o (resample_from o df) = resample_from o df.
Proof.
  rewrite (resample_from_eq o (resample_from o df)).
  rewrite rebin_same_bins.
  rewrite (resample_from_eq o df) at 2. fold kept.
  apply map_ext_in. intros k Hk. now apply rebin_kept.
Qed.
End Rebin.

(** The first bin of a sorted frame of finite bars is kept, and its label
    lies in the first bar's day: the binned frame has the same anchor. *)
Lemma start_day_resampled (tz : Timezone) (s : DataFrame) :
  forallb finite_row s = true -> nondecreasing s -> s <> [] ->
  start_day tz (resample_from (start_day tz s) s) = start_day tz s.
Proof.
  intros Hfin Hs Hne. destruct s as [| r0 t]; [congruence |].
  set (o := start_day tz (r0 :: t)).
  set (k0 := bucket o (ts r0)).
  assert (Hin0 : In r0 (in_bucket o k0 (r0 :: t))).
  { apply filter_In. split; [now left | apply Z.eqb_refl]. }
  assert (Hne0 : in_bucket o k0 (r0 :: t) <> []).
  { intros E. rewrite E in Hin0. contradiction. }
  assert (Hkeep : negb (has_nan (agg_bucket o (r0 :: t) k0)) = true).
  { destruct (agg_bucket_group o (r0 :: t) k0 Hfin Hne0) as [Hnan _].
    now rewrite Hnan. }
  assert (Hk1 : (k0 <= bucket o (ts (last (r0 :: t) r0)))%Z).
  { apply bucket_mono. apply sorted_last; [exact Hs | now left]. }
  rewrite resample_from_eq. unfold bucket_range. fold k0.
  destruct (Z.to_nat (bucket o (ts (last (r0 :: t) r0)) - k0 + 1)) as [| n] eqn:E;
    [lia |].
  cbn [seq map]. replace (k0 + Z.of_nat 0)%Z with k0 by lia.
  cbn [filter]. rewrite Hkeep. cbn [map start_day agg_bucket ts].
  unfold o at 2. cbn [start_day]. apply day_start_same.
  pose proof (day_start_le tz (ts r0)) as Hle.
  unfold k0, bucket, four_hours, o. cbn [start_day].
  Z.div_mod_to_equations. lia.
Qed.

End RebinFacts.
Import RebinFacts.

(** X22: resampling a frame that is already in 4-hour rows changes
    nothing: applied to its own result on a frame of finite bars, the
    resampling gives that result back. *)
Theorem resample_4h_idempotent (tz : Frame.Timezone) (df : Frame.DataFrame) :
  forallb Frame.finite_row df = true ->
  Frame.resample_4h tz (Frame.resample_4h tz df) = Frame.resample_4h tz df.
Proof.
  intros Hfin. unfold Frame.resample_4h.
  set (s := Frame.sort_index df). set (o := Frame.start_day tz s).
  assert (Hs : forallb Frame.finite_row s = true) by now apply sort_index_finite.
  rewrite (sort_index_ascending (Frame.resample_from o s))
    by apply resample_from_sorted.
  destruct s as [| r0 t] eqn:Es.
  - reflexivity.
  - assert (Ho : Frame.start_day tz (Frame.resample_from o (r0 :: t)) = o).
    { apply start_day_resampled; [exact Hs | | discriminate].
      rewrite <- Es. apply sort_index_sorted. }
    rewrite Ho. now apply resample_from_again.
Qed.

Lemma resample_4h_idempotent_witness :
  Frame.resample_4h utc (Frame.resample_4h utc hourly_bars)
  = Frame.resample_4h utc hourly_bars.
Proof. apply resample_4h_idempotent. reflexivity. Defined.

(* ================================================================== *)
(** ** The indicator lines in binary64 *)
(* ================================================================== *)

Module Replay.
Import PrimFloat.



(** The correction of C3 in binary64: thirteen changes give RSI[13] = 75. *)
Example rsi_row_13_binary64 :
  nth 13 (Binary64.RSI
            [10; 11; 12; 11; 13; 14; 13; 15; 16; 15; 16; 17; 16; 18]%float) nan
  = 75%float.
Proof. vm_compute. reflexivity. Qed.

End Replay.

(** Bins after a clock change.  The frame starts on a day whose midnight is
    instant 0; the clocks go forward on the next day, so the third day
    starts at 169200.  Its bars of 11:30 and 12:30 on the wall clock
    (instants 210600 and 214200) fall in one bin, whose label 201600 reads
    09:00 on the wall clock: the bins keep stepping four elapsed hours
    from the first day's midnight. *)
Example bins_after_clock_change :
  let o := Frame.start_day clocks_forward [rising_bar] in
  o = 0%Z
  /\ Frame.bucket o 210600 = Frame.bucket o 214200
  /\ (o + Frame.bucket o 214200 * Frame.four_hours)%Z = 201600%Z
  /\ (201600 - Frame.day_start clocks_forward 214200)%Z = (9 * 3600)%Z.
Proof. cbv zeta. repeat split. Qed.

(** The rolling computation names the window it refuses. *)
Example window_zero_message :
  Dashboard.history all_up (sidebar_with "1d" 0) []
  = (Dashboard.Ok tt,
     [Dashboard.ErrorMsg
        "Error calculating technicals: min_periods 1 must be <= window 0"])
  /\ Dashboard.history all_up (sidebar_with "1d" (-1)) []
     = (Dashboard.Ok tt,
        [Dashboard.ErrorMsg
           "Error calculating technicals: min_periods 1 must be <= window -1"]).
Proof. split; reflexivity. Qed.

(** Rows that arrive out of order are put in order before they are binned:
    resampling a frame and resampling the sorted frame agree. *)
Lemma resample_4h_sorts_first (tz : Frame.Timezone) (df : Frame.DataFrame) :
  Frame.resample_4h tz (Frame.sort_index df) = Frame.resample_4h tz df.
Proof.
  unfold Frame.resample_4h.
  now rewrite (sort_index_id (Frame.sort_index df)) by apply sort_index_sorted.
Qed.

Example reversed_frame_is_sorted :
  Frame.sort_index (rev hourly_bars) = hourly_bars.
Proof. reflexivity. Qed.
